(** * Kijko launcher ([launch-kijko.py]): a shallow embedding and its properties

    The launcher is one Python function, [main], that orchestrates the
    operating system: it changes directory, checks two executables, looks for
    a marker file holding a process identifier, probes that process, and
    otherwise spawns the development server, records its identifier, opens a
    browser and mirrors the server's output until it exits.

    The embedding keeps that shape.  The file system, the working directory
    and the chronological record of the actions performed form the mutable
    [State]; the answers of everything the launcher cannot decide by itself
    (the process table, [subprocess.Popen], [time.sleep], [webbrowser.open],
    the child's output and exit status) are collected in an [Env].  Python's
    control flow (exceptions, [return] from inside a [try], a [while True]
    loop) is carried by a small monad with four outcomes.

    Modelling boundaries, stated once:
    - text is ASCII ([string] of Rocq); a character above 127 is an ordinary
      character, neither a digit nor white space;
    - the file system is a flat finite map from absolute paths to nodes, with
      neither permissions nor parent directories; nothing but the launcher
      changes it during a run;
    - [print] always succeeds; an exception, an interrupt included, arises
      only where the launcher calls into its surroundings;
    - integers are unbounded, as in Python.  The interpreter's limit on the
      length of an integer literal ([sys.int_max_str_digits], 4300 digits
      unless reconfigured) is not built into [py_int]: [within_int_limit]
      states it, and a property that depends on a literal of any length
      being accepted takes it as a hypothesis. *)

From Stdlib Require Import ZArith NArith Ascii String List Lia.
From stdpp Require Import base option gmap strings pretty.

Local Open Scope Z_scope.

(** ** Python text primitives used by the launcher *)

Module PyText.

(** [str.isspace] on one ASCII character: TAB, LF, VT, FF, CR, the four
    separators FS, GS, RS, US, and the space. *)
Definition py_isspace (c : ascii) : bool :=
  let n := N_of_ascii c in
  ((9 <=? n) && (n <=? 13) || (28 <=? n) && (n <=? 32))%N.

(** Value of an ASCII decimal digit. *)
Definition digit_val (c : ascii) : option N :=
  let n := N_of_ascii c in
  if ((48 <=? n) && (n <=? 57))%N then Some (n - 48)%N else None.

Fixpoint lstrip (s : string) : string :=
  match s with
  | String c s' => if py_isspace c then lstrip s' else s
  | EmptyString => EmptyString
  end.

Fixpoint rstrip (s : string) : string :=
  match s with
  | EmptyString => EmptyString
  | String c s' =>
      match rstrip s' with
      | EmptyString => if py_isspace c then EmptyString else String c EmptyString
      | t => String c t
      end
  end.

(** [s.strip()]: white space removed at both ends. *)
Definition py_strip (s : string) : string := rstrip (lstrip s).

(** [str(n)] for an integer: minus sign for negatives, decimal digits without
    leading zeros, ["0"] for zero. *)
Definition py_str (z : Z) : string := pretty z.

(** The digit run of an integer literal: decimal digits, where a single
    underscore may stand between two digits.  [prev_us] records that the
    previous character was an underscore. *)
Fixpoint int_digits (prev_us : bool) (acc : N) (s : string) : option N :=
  match s with
  | EmptyString => if prev_us then None else Some acc
  | String c s' =>
      if Ascii.eqb c "_"
      then (if prev_us then None else int_digits true acc s')
      else match digit_val c with
           | Some d => int_digits false (acc * 10 + d)%N s'
           | None => None
           end
  end.

(** The literal after its sign: a non-empty digit run that does not start
    with an underscore. *)
Definition int_body (neg : bool) (body : string) : option Z :=
  match body with
  | EmptyString => None
  | String c _ =>
      if Ascii.eqb c "_" then None
      else match int_digits false 0 body with
           | Some n => Some (if neg then - Z.of_N n else Z.of_N n)
           | None => None
           end
  end.

(** An optional sign, then the body. *)
Definition int_signed (s : string) : option Z :=
  match s with
  | String c r =>
      if Ascii.eqb c "+" then int_body false r
      else if Ascii.eqb c "-" then int_body true r
      else int_body false s
  | EmptyString => None
  end.

(** [int(s)] in base 10; [None] stands for [ValueError].  [int] itself skips
    white space around the literal. *)
Definition py_int (s : string) : option Z := int_signed (py_strip s).

(** The default of [sys.int_max_str_digits]. *)
Definition int_max_str_digits : nat := 4300.

(** The decimal digits of [s], leading zeros included: what [int] counts
    against the limit (sign, underscores and white space do not count). *)
Fixpoint count_digits (s : string) : nat :=
  match s with
  | EmptyString => O
  | String c s' =>
      match digit_val c with
      | Some _ => S (count_digits s')
      | None => count_digits s'
      end
  end.

(** [int(s)] does not refuse [s] for its length. *)
Definition within_int_limit (s : string) : bool :=
  Nat.leb (count_digits s) int_max_str_digits.

(** No character of [s] is white space. *)
Fixpoint no_space (s : string) : bool :=
  match s with
  | EmptyString => true
  | String c s' => negb (py_isspace c) && no_space s'
  end.

End PyText.
Export PyText.

(** ** Exceptions *)

Module PyExn.

(** The exception classes that can reach the launcher's handlers.  The
    classes from [FileNotFoundError] to [OSError] derive from [OSError];
    everything except [KeyboardInterrupt] and [SystemExit] derives from
    [Exception]. *)
Inductive exn_class : Type :=
| FileNotFoundError | IsADirectoryError | NotADirectoryError
| PermissionError | ProcessLookupError | OSError
| ValueError | OverflowError | RuntimeError
| KeyboardInterrupt | SystemExit.

(** An exception object: its class and the text [str(e)] gives. *)
Record exn : Type := Exn { exn_cls : exn_class; exn_msg : string }.

Definition is_FileNotFoundError (e : exn) : bool :=
  match exn_cls e with FileNotFoundError => true | _ => false end.

Definition is_ValueError (e : exn) : bool :=
  match exn_cls e with ValueError => true | _ => false end.

Definition is_OSError (e : exn) : bool :=
  match exn_cls e with
  | FileNotFoundError | IsADirectoryError | NotADirectoryError
  | PermissionError | ProcessLookupError | OSError => true
  | _ => false
  end.

Definition is_Exception (e : exn) : bool :=
  match exn_cls e with
  | KeyboardInterrupt | SystemExit => false
  | _ => true
  end.

End PyExn.
Export PyExn.

(** ** The world the launcher runs in *)

(** What a path of the file system holds. *)
Inductive node : Type :=
| File (content : string)
| Dir.

(** Answer of the process table to signal 0. *)
Inductive probe : Type :=
| Alive            (* the signal could be delivered *)
| NoSuchProcess    (* ESRCH *)
| NotPermitted.    (* EPERM *)

(** The actions of a run, in the order they are performed.  An action is
    recorded when it is attempted, whether or not it then raises. *)
Inductive event : Type :=
| Print (line : string)
| Chdir (path : string)
| Kill (pid sig : Z)
| BrowserOpen (url : string)
| Remove (path : string)
| Popen (argv : list string) (cwd : string) (env : gmap string string)
| WriteFile (path content : string)
| Sleep (seconds : Z)
| Readline
| Poll.

(** Answers of the surroundings.  [e_readline i] is what the [i]-th call of
    [process.stdout.readline()] gives and [e_poll i] what [process.poll()]
    gives when it is called in the same iteration of the monitoring loop. *)
Record Env : Type := {
  e_environ : gmap string string;
  e_probe : Z -> probe;
  e_popen : exn + Z;
  e_sleep : option exn;
  e_browser : option exn;
  e_readline : nat -> exn + string;
  e_poll : nat -> exn + option Z
}.

Record State : Type := {
  st_fs : gmap string node;
  st_cwd : string;
  st_log : list event
}.

Definition record (ev : event) (st : State) : State :=
  {| st_fs := st_fs st; st_cwd := st_cwd st; st_log := st_log st ++ [ev] |}.

Definition with_fs (fs : gmap string node) (st : State) : State :=
  {| st_fs := fs; st_cwd := st_cwd st; st_log := st_log st |}.

Definition with_cwd (d : string) (st : State) : State :=
  {| st_fs := st_fs st; st_cwd := d; st_log := st_log st |}.

(** ** Control flow *)

(** How a block of statements ends: it falls through with a value, executes
    [return code], raises, or is still running when the fuel of the
    monitoring loop is spent. *)
Inductive outcome (A : Type) : Type :=
| Val (a : A)
| Return (code : Z)
| Raise (e : exn)
| Running.
Arguments Val {A} a.
Arguments Return {A} code.
Arguments Raise {A} e.
Arguments Running {A}.

Definition M (A : Type) : Type := Env -> State -> outcome A * State.

Definition ret {A} (a : A) : M A := fun _ st => (Val a, st).

Definition bind {A B} (m : M A) (k : A -> M B) : M B :=
  fun env st =>
    match m env st with
    | (Val a, st') => k a env st'
    | (Return c, st') => (Return c, st')
    | (Raise e, st') => (Raise e, st')
    | (Running, st') => (Running, st')
    end.

Definition return_ {A} (code : Z) : M A := fun _ st => (Return code, st).
Definition raise {A} (e : exn) : M A := fun _ st => (Raise e, st).
Definition running {A} : M A := fun _ st => (Running, st).

(** [try: body except ...]: [clauses e] is the handler of the first clause
    that matches [e], if any. *)
Definition try_except {A} (body : M A) (clauses : exn -> option (M A)) : M A :=
  fun env st =>
    match body env st with
    | (Raise e, st') =>
        match clauses e with
        | Some handler => handler env st'
        | None => (Raise e, st')
        end
    | r => r
    end.

Declare Scope py_scope.
Delimit Scope py_scope with py.
Notation "'let*' x ':=' m 'in' k" := (bind m (fun x => k))
  (at level 10, x name, m at level 100, k at level 200) : py_scope.
Notation "m ';;' k" := (bind m (fun _ => k))
  (at level 100, k at level 200, right associativity) : py_scope.
Local Open Scope py_scope.

(** ** Library calls *)

Module Sys.

Definition print (line : string) : M unit :=
  fun _ st => (Val tt, record (Print line) st).

Definition os_environ_copy : M (gmap string string) :=
  fun env st => (Val (e_environ env), st).

Definition os_chdir (path : string) : M unit :=
  fun _ st =>
    let st := record (Chdir path) st in
    match st_fs st !! path with
    | Some Dir => (Val tt, with_cwd path st)
    | Some (File _) =>
        (Raise (Exn NotADirectoryError ("[Errno 20] Not a directory: " +:+ path)), st)
    | None =>
        (Raise (Exn FileNotFoundError
                  ("[Errno 2] No such file or directory: " +:+ path)), st)
    end.

Definition path_exists (fs : gmap string node) (path : string) : bool :=
  match fs !! path with Some _ => true | None => false end.

Definition os_path_exists (path : string) : M bool :=
  fun _ st => (Val (path_exists (st_fs st) path), st).

(** [with open(path, 'r') as f: f.read()] *)
Definition read_text (path : string) : M string :=
  fun _ st =>
    match st_fs st !! path with
    | Some (File content) => (Val content, st)
    | Some Dir =>
        (Raise (Exn IsADirectoryError ("[Errno 21] Is a directory: " +:+ path)), st)
    | None =>
        (Raise (Exn FileNotFoundError
                  ("[Errno 2] No such file or directory: " +:+ path)), st)
    end.

(** [with open(path, 'w') as f: f.write(content)] *)
Definition write_text (path content : string) : M unit :=
  fun _ st =>
    let st := record (WriteFile path content) st in
    match st_fs st !! path with
    | Some Dir =>
        (Raise (Exn IsADirectoryError ("[Errno 21] Is a directory: " +:+ path)), st)
    | _ => (Val tt, with_fs (<[path := File content]> (st_fs st)) st)
    end.

Definition os_remove (path : string) : M unit :=
  fun _ st =>
    let st := record (Remove path) st in
    match st_fs st !! path with
    | Some (File _) => (Val tt, with_fs (delete path (st_fs st)) st)
    | Some Dir =>
        (Raise (Exn IsADirectoryError ("[Errno 21] Is a directory: " +:+ path)), st)
    | None =>
        (Raise (Exn FileNotFoundError
                  ("[Errno 2] No such file or directory: " +:+ path)), st)
    end.

(** [int(text)], raising [ValueError] on a malformed literal. *)
Definition int_ (text : string) : M Z :=
  match py_int text with
  | Some z => ret z
  | None =>
      raise (Exn ValueError ("invalid literal for int() with base 10: " +:+ text))
  end.

(** The process identifier must fit the C type [pid_t] (a 32-bit [int]). *)
Definition fits_pid_t (pid : Z) : bool :=
  (- 2 ^ 31 <=? pid) && (pid <? 2 ^ 31).

(** What the conversion of [pid] to [pid_t] says when it fails: beyond the
    C [long] (64 bits), above the C [int], or below it. *)
Definition overflow_text (pid : Z) : string :=
  if (pid <? - 2 ^ 63) || (2 ^ 63 <=? pid)
  then "Python int too large to convert to C long"
  else if 2 ^ 31 <=? pid
  then "signed integer is greater than maximum"
  else "signed integer is less than minimum".

(** What [os.kill(pid, 0)] raises, if anything: signal 0 delivers nothing and
    only checks that the target exists and may be signalled. *)
Definition kill0_raises (env : Env) (pid : Z) : option exn :=
  if fits_pid_t pid then
    match e_probe env pid with
    | Alive => None
    | NoSuchProcess => Some (Exn ProcessLookupError "[Errno 3] No such process")
    | NotPermitted => Some (Exn PermissionError "[Errno 1] Operation not permitted")
    end
  else Some (Exn OverflowError (overflow_text pid)).

(** [os.kill(pid, sig)] as the launcher uses it, with [sig = 0]. *)
Definition os_kill (pid sig : Z) : M unit :=
  fun env st =>
    let st := record (Kill pid sig) st in
    match kill0_raises env pid with
    | None => (Val tt, st)
    | Some e => (Raise e, st)
    end.

Definition webbrowser_open (url : string) : M unit :=
  fun env st =>
    let st := record (BrowserOpen url) st in
    match e_browser env with
    | None => (Val tt, st)
    | Some e => (Raise e, st)
    end.

Definition time_sleep (seconds : Z) : M unit :=
  fun env st =>
    let st := record (Sleep seconds) st in
    match e_sleep env with
    | None => (Val tt, st)
    | Some e => (Raise e, st)
    end.

(** [subprocess.Popen(argv, cwd=..., env=..., stdout=PIPE, stderr=STDOUT,
    universal_newlines=True)]; the value is the child's [pid]. *)
Definition subprocess_Popen (argv : list string) (cwd : string)
    (env' : gmap string string) : M Z :=
  fun env st =>
    let st := record (Popen argv cwd env') st in
    match e_popen env with
    | inr pid => (Val pid, st)
    | inl e => (Raise e, st)
    end.

(** The [i]-th [process.stdout.readline()]. *)
Definition stdout_readline (i : nat) : M string :=
  fun env st =>
    let st := record Readline st in
    match e_readline env i with
    | inr line => (Val line, st)
    | inl e => (Raise e, st)
    end.

(** [process.poll()] in iteration [i]: [None] while the child runs. *)
Definition process_poll (i : nat) : M (option Z) :=
  fun env st =>
    let st := record Poll st in
    match e_poll env i with
    | inr status => (Val status, st)
    | inl e => (Raise e, st)
    end.

End Sys.
Export Sys.

(** ** The launcher *)

Module Launcher.

(** *** Configuration (lines 12-17) *)
Definition APP_DIR : string := "/home/david/Projects/Kijko/MVP/MVP_Kijko".
Definition PID_FILE : string := "/tmp/kijko-app.pid".
Definition NODE_BIN : string := "/home/david/.nvm/versions/node/v24.4.1/bin".
Definition NPM : string := NODE_BIN +:+ "/npm".
Definition NODE : string := NODE_BIN +:+ "/node".
Definition PORT : Z := 5173.

(** [f"http://localhost:{PORT}"] *)
Definition URL : string := "http://localhost:" +:+ py_str PORT.

(** The command line handed to [subprocess.Popen] (lines 70-73). *)
Definition ARGV : list string :=
  ["bash"; "-c"; "source /home/david/.nvm/nvm.sh && nvm use 24.4.1 && npm run dev"].

(** Lines 61-64: the child's environment. *)
Definition child_env (environ : gmap string string) : gmap string string :=
  let env := environ in
  let env := <["PATH" := NODE_BIN +:+ ":" +:+ default "" (env !! "PATH")]> env in
  let env := <["NVM_BIN" := NODE_BIN]> env in
  <["NVM_DIR" := "/home/david/.nvm"]> env.

(** Lines 19-25: the banner and the change of directory. *)
Definition preamble : M unit :=
  print "=== Kijko Python Launcher ===" ;;
  print ("App Directory: " +:+ APP_DIR) ;;
  print ("Node Binary: " +:+ NODE) ;;
  print ("NPM Binary: " +:+ NPM) ;;
  os_chdir APP_DIR.

(** Lines 28-36: both executables must exist. *)
Definition check_binaries : M unit :=
  let* node_exists := os_path_exists NODE in
  (if negb node_exists then
     print ("Error: Node.js not found at " +:+ NODE) ;;
     print "Please check your Node.js installation" ;;
     return_ 1
   else ret tt) ;;
  let* npm_exists := os_path_exists NPM in
  if negb npm_exists then
    print ("Error: NPM not found at " +:+ NPM) ;;
    print "Please check your NPM installation" ;;
    return_ 1
  else ret tt.

(** Lines 39-56: is the application already running? *)
Definition check_running : M unit :=
  let* marker_exists := os_path_exists PID_FILE in
  if marker_exists then
    try_except
      (let* text := read_text PID_FILE in
       let* pid := int_ (py_strip text) in
       try_except
         (os_kill pid 0 ;;
          print ("Kijko app is already running (PID: " +:+ py_str pid +:+ ")") ;;
          webbrowser_open URL ;;
          return_ 0)
         (fun e =>
            if is_OSError e then Some (os_remove PID_FILE) else None))
      (fun e =>
         if is_ValueError e || is_FileNotFoundError e then
           Some (let* still_there := os_path_exists PID_FILE in
                 if still_there then os_remove PID_FILE else ret tt)
         else None)
  else ret tt.

(** Lines 100-105: the monitoring loop.  [i] counts the iterations; the loop
    of the source has no bound, [fuel] bounds the iterations that are run. *)
Fixpoint monitor (fuel : nat) (i : nat) : M unit :=
  match fuel with
  | O => running
  | S fuel' =>
      let* output := stdout_readline i in
      let* finished :=
        (if String.eqb output "" then
           let* status := process_poll i in
           ret (match status with Some _ => true | None => false end)
         else ret false) in
      if finished then ret tt
      else
        (if negb (String.eqb output "") then print (py_strip output)
         else ret tt) ;;
        monitor fuel' (S i)
  end.

(** Lines 108-109: the marker is dropped once the child is gone. *)
Definition cleanup : M unit :=
  let* marker_exists := os_path_exists PID_FILE in
  if marker_exists then os_remove PID_FILE else ret tt.

(** Lines 69-109: the body of the outer [try]. *)
Definition launch (fuel : nat) (env : gmap string string) : M unit :=
  let* pid := subprocess_Popen ARGV APP_DIR env in
  write_text PID_FILE (py_str pid) ;;
  print ("Kijko app started with PID: " +:+ py_str pid) ;;
  print ("PID saved to " +:+ PID_FILE) ;;
  print "Waiting for server to start..." ;;
  time_sleep 3 ;;
  print "Opening browser..." ;;
  webbrowser_open URL ;;
  print "Kijko app is now running!" ;;
  print "Use the close button in the app or run kill-kijko.sh to stop it." ;;
  monitor fuel 0 ;;
  cleanup.

(** Lines 111-117: the two [except] clauses of the outer [try]. *)
Definition launch_clauses (e : exn) : option (M unit) :=
  if is_FileNotFoundError e then
    Some (print ("Error: Could not execute " +:+ NPM) ;;
          print "Please check your Node.js/NPM installation" ;;
          return_ 1)
  else if is_Exception e then
    Some (print ("Error starting Kijko app: " +:+ exn_msg e) ;;
          return_ 1)
  else None.

(** Lines 66 and 111-119: the outer [try] around [body], and the final
    [return 0]. *)
Definition guarded (body : M unit) : M unit :=
  try_except body launch_clauses ;;
  return_ 0.

(** Lines 58-119: everything after the duplicate-run detection. *)
Definition start (fuel : nat) : M unit :=
  print "Starting Kijko app..." ;;
  let* environ := os_environ_copy in
  guarded (launch fuel (child_env environ)).

(** [main()], lines 10-119. *)
Definition main (fuel : nat) : M unit :=
  preamble ;;
  check_binaries ;;
  check_running ;;
  start fuel.

End Launcher.
Export Launcher.

(** ** Concrete worlds *)

Module Worlds.

(** A machine on which nothing goes wrong: the child prints two lines and
    exits with status [status]. *)
Definition calm (status : Z) : Env :=
  {| e_environ := {[ "PATH" := "/usr/bin" ]};
     e_probe := fun pid => if pid =? 4242 then Alive else NoSuchProcess;
     e_popen := inr 31337;
     e_sleep := None;
     e_browser := None;
     e_readline := fun i =>
       match i with
       | O => inr "  VITE ready
"
       | 1%nat => inr "  Local: http://localhost:5173/
"
       | _ => inr ""
       end;
     e_poll := fun _ => inr (Some status) |}.

Definition installed : gmap string node :=
  {[ APP_DIR := Dir; NODE := File "ELF"; NPM := File "#!/usr/bin/env node" ]}.

Definition boot (fs : gmap string node) : State :=
  {| st_fs := fs; st_cwd := "/home/david"; st_log := [] |}.

(** The installation with a marker file holding [text]. *)
Definition with_marker (text : string) : gmap string node :=
  <[PID_FILE := File text]> installed.

(** The application directory alone: neither [node] nor [npm]. *)
Definition no_runtime : gmap string node := {[ APP_DIR := Dir ]}.

(** [node] is there, [npm] is not. *)
Definition no_npm : gmap string node :=
  {[ APP_DIR := Dir; NODE := File "ELF" ]}.

(** [bash] cannot be started. *)
Definition no_shell : Env :=
  {| e_environ := ∅;
     e_probe := fun _ => NoSuchProcess;
     e_popen := inl (Exn FileNotFoundError
                       "[Errno 2] No such file or directory: 'bash'");
     e_sleep := None;
     e_browser := None;
     e_readline := fun _ => inr "";
     e_poll := fun _ => inr (Some 0) |}.


(** The user presses Ctrl-C while the launcher waits for the second line. *)
Definition interrupted_reading : Env :=
  {| e_environ := e_environ (calm 0);
     e_probe := e_probe (calm 0);
     e_popen := inr 31337;
     e_sleep := None;
     e_browser := None;
     e_readline := fun i =>
       match i with
       | O => inr "  VITE ready
"
       | _ => inl (Exn KeyboardInterrupt "")
       end;
     e_poll := e_poll (calm 0) |}.

(** The pipe to the child breaks after the first line. *)
Definition broken_pipe : Env :=
  {| e_environ := e_environ (calm 0);
     e_probe := e_probe (calm 0);
     e_popen := inr 31337;
     e_sleep := None;
     e_browser := None;
     e_readline := fun i =>
       match i with
       | O => inr "  VITE ready
"
       | _ => inl (Exn OSError "[Errno 5] Input/output error")
       end;
     e_poll := e_poll (calm 0) |}.

End Worlds.
Export Worlds.

(** ** Observations on a run *)

Module Observe.

(** What every run prints and does first (lines 19-25). *)
Definition banner : list event :=
  [ Print "=== Kijko Python Launcher ===";
    Print ("App Directory: " +:+ APP_DIR);
    Print ("Node Binary: " +:+ NODE);
    Print ("NPM Binary: " +:+ NPM);
    Chdir APP_DIR ].

(** The state once the launcher stands in the application directory. *)
Definition entered (st : State) : State :=
  {| st_fs := st_fs st; st_cwd := APP_DIR; st_log := st_log st ++ banner |}.

(** The run gets past the change of directory and the two checks. *)
Definition ready (st : State) : Prop :=
  st_fs st !! APP_DIR = Some Dir /\
  path_exists (st_fs st) NODE = true /\
  path_exists (st_fs st) NPM = true.

(** The run reaches the spawn: it gets past the checks and the
    duplicate-run detection falls through. *)
Definition reaches_spawn (env : Env) (st : State) : Prop :=
  ready st /\ fst (check_running env (entered st)) = Val tt.

(** The state in which the spawn phase then starts. *)
Definition at_spawn (env : Env) (st : State) : State :=
  snd (check_running env (entered st)).

(** What is printed when an executable is missing (lines 29-30, 34-35). *)
Definition missing_report (fs : gmap string node) : list event :=
  if path_exists fs NODE then
    [ Print ("Error: NPM not found at " +:+ NPM);
      Print "Please check your NPM installation" ]
  else
    [ Print ("Error: Node.js not found at " +:+ NODE);
      Print "Please check your Node.js installation" ].


(** The command lines of the children that were spawned. *)
Definition spawned (evs : list event) : list (list string) :=
  flat_map (fun ev => match ev with Popen argv _ _ => [argv] | _ => [] end) evs.

(** What one iteration of the monitoring loop meets. *)
Inductive step : Type :=
| Goes                  (* a line was printed, or the child is silent but alive *)
| Ends (status : Z)     (* end of stream and the child has exited *)
| Fails (e : exn).      (* [readline] or [poll] raised *)

Definition step_at (env : Env) (i : nat) : step :=
  match e_readline env i with
  | inl e => Fails e
  | inr line =>
      if String.eqb line "" then
        match e_poll env i with
        | inl e => Fails e
        | inr None => Goes
        | inr (Some status) => Ends status
        end
      else Goes
  end.

Definition goes_on (env : Env) (i : nat) : bool :=
  match step_at env i with Goes => true | _ => false end.

(** The loop runs through the [n] iterations from [i] on. *)
Definition streams (env : Env) (i n : nat) : bool :=
  forallb (goes_on env) (seq i n).

(** The actions of iteration [i]. *)
Definition step_events (env : Env) (i : nat) : list event :=
  match e_readline env i with
  | inl _ => [Readline]
  | inr line =>
      if String.eqb line "" then [Readline; Poll]
      else [Readline; Print (py_strip line)]
  end.

(** The actions of the iterations [0 .. n]. *)
Definition monitored (env : Env) (n : nat) : list event :=
  flat_map (step_events env) (seq 0 (S n)).

(** A block only ever adds to the record of actions, and what it adds
    satisfies [P]. *)
Definition emits {A} (P : event -> Prop) (m : M A) : Prop :=
  forall env st,
    exists evs, st_log (snd (m env st)) = st_log st ++ evs /\ Forall P evs.

(** The first action of a block is [ev]. *)
Definition opens_with {A} (ev : event) (m : M A) : Prop :=
  forall env st,
    exists rest, st_log (snd (m env st)) = st_log st ++ ev :: rest.

Definition any_event (ev : event) : Prop := True.

(** The actions of the duplicate-run detection. *)
Definition detection_event (ev : event) : Prop :=
  match ev with
  | Kill _ _ | Print _ | BrowserOpen _ | Remove _ => True
  | _ => False
  end.


(** What the outer handlers print for [e] (lines 111-116). *)
Definition report (e : exn) : list event :=
  if is_FileNotFoundError e then
    [ Print ("Error: Could not execute " +:+ NPM);
      Print "Please check your Node.js/NPM installation" ]
  else if is_Exception e then
    [ Print ("Error starting Kijko app: " +:+ exn_msg e) ]
  else [].

(** How a run ends when the body of the outer [try] raises [e]. *)
Definition verdict (e : exn) : outcome unit :=
  if is_Exception e then Return 1 else Raise e.

(** The actions from the spawn to the entry of the monitoring loop. *)
Definition spawn_events (pid : Z) (cenv : gmap string string) : list event :=
  [ Popen ARGV APP_DIR cenv;
    WriteFile PID_FILE (py_str pid);
    Print ("Kijko app started with PID: " +:+ py_str pid);
    Print ("PID saved to " +:+ PID_FILE);
    Print "Waiting for server to start...";
    Sleep 3;
    Print "Opening browser...";
    BrowserOpen URL;
    Print "Kijko app is now running!";
    Print "Use the close button in the app or run kill-kijko.sh to stop it." ].

(** The first exception raised once the marker is written, if any of the
    delay, the browser or the iterations [0 .. n] of the loop raises. *)
Definition late_failure (env : Env) (n : nat) : option exn :=
  match e_sleep env with
  | Some e => Some e
  | None =>
      match e_browser env with
      | Some e => Some e
      | None =>
          if streams env 0 n then
            match step_at env n with Fails e => Some e | _ => None end
          else None
      end
  end.


End Observe.
Export Observe.

(** ** Further observations *)

Module Survey.

(** The lines a record of actions shows on the console. *)
Definition printed (evs : list event) : list string :=
  flat_map (fun ev => match ev with Print line => [line] | _ => [] end) evs.

(** What the child's [i]-th line puts on the console: nothing for the empty
    string or a failed read, the stripped line otherwise. *)
Definition line_shown (env : Env) (i : nat) : list string :=
  match e_readline env i with
  | inr line => if String.eqb line "" then [] else [py_strip line]
  | inl _ => []
  end.

(** What the child's lines [i .. i + n - 1] put on the console. *)
Definition lines_shown (env : Env) (i n : nat) : list string :=
  flat_map (line_shown env) (seq i n).

(** Every character of [s] is white space. *)
Fixpoint all_space (s : string) : bool :=
  match s with
  | EmptyString => true
  | String c s' => py_isspace c && all_space s'
  end.

(** A block changes the file system at the path [q] at most. *)
Definition touches_only {A} (q : string) (m : M A) : Prop :=
  forall env st p, p <> q -> st_fs (snd (m env st)) !! p = st_fs st !! p.

(** A block calls [Popen] at most [k] times. *)
Definition spawns_at_most {A} (k : nat) (m : M A) : Prop :=
  forall env st,
    exists evs,
      st_log (snd (m env st)) = st_log st ++ evs /\
      (length (spawned evs) <= k)%nat.

(** Every action but a spawn. *)
Definition no_spawn (ev : event) : Prop :=
  match ev with Popen _ _ _ => False | _ => True end.

(** A block that executes [return] does so with a code satisfying [P]. *)
Definition returns_only {A} (P : Z -> Prop) (m : M A) : Prop :=
  forall env st code, fst (m env st) = Return code -> P code.

Definition zero_or_one (code : Z) : Prop := code = 0 \/ code = 1.

Definition nonzero (code : Z) : Prop := code <> 0.

(** A block that executes [return 0] has opened the browser at [URL]. *)
Definition opened_if_zero {A} (m : M A) : Prop :=
  forall env st,
    exists evs,
      st_log (snd (m env st)) = st_log st ++ evs /\
      (fst (m env st) = Return 0 -> In (BrowserOpen URL) evs).

(** A block that executes [return 0] or runs to its end has opened the
    browser at [URL]. *)
Definition opened_if_done {A} (m : M A) : Prop :=
  forall env st,
    exists evs,
      st_log (snd (m env st)) = st_log st ++ evs /\
      (fst (m env st) = Return 0 \/ (exists a, fst (m env st) = Val a) ->
       In (BrowserOpen URL) evs).

(** A handler that can only raise or return a nonzero code. *)
Definition bails {A} (h : M A) : Prop :=
  emits any_event h /\ returns_only nonzero h /\
  forall env st a, fst (h env st) <> Val a.

End Survey.
Export Survey.

Module MoreWorlds.

(** The recorded process belongs to somebody else: signal 0 is refused. *)
Definition foreign : Env :=
  {| e_environ := e_environ (calm 0);
     e_probe := fun _ => NotPermitted;
     e_popen := inr 31337;
     e_sleep := None;
     e_browser := None;
     e_readline := e_readline (calm 0);
     e_poll := e_poll (calm 0) |}.

(** No browser can be started, here and now. *)
Definition no_browser : Env :=
  {| e_environ := e_environ (calm 0);
     e_probe := e_probe (calm 0);
     e_popen := inr 31337;
     e_sleep := None;
     e_browser := Some (Exn OSError "[Errno 8] Exec format error");
     e_readline := e_readline (calm 0);
     e_poll := e_poll (calm 0) |}.

(** The child prints a line, then closes its output and stays alive. *)
Definition lingering : Env :=
  {| e_environ := e_environ (calm 0);
     e_probe := fun pid => if pid =? 31337 then Alive else NoSuchProcess;
     e_popen := inr 31337;
     e_sleep := None;
     e_browser := None;
     e_readline := fun i =>
       match i with
       | O => inr "  VITE ready
"
       | _ => inr ""
       end;
     e_poll := fun _ => inr None |}.

(** The marker path is a directory. *)
Definition marker_is_dir : gmap string node := <[PID_FILE := Dir]> installed.

End MoreWorlds.
Export MoreWorlds.

(** ** Proof automation *)

(** Unfold the monad and the library calls, then compute on the state. *)
Ltac exec1 :=
  unfold bind, ret, return_, raise, running, try_except,
    print, os_environ_copy, os_chdir, os_path_exists, read_text, write_text,
    os_remove, int_, os_kill, webbrowser_open, time_sleep, subprocess_Popen,
    stdout_readline, process_poll, record, with_fs, with_cwd;
  cbn [st_fs st_cwd st_log fst snd negb orb andb exn_cls exn_msg
       is_ValueError is_FileNotFoundError is_OSError is_Exception].
(** Rewrite with the equations at hand wherever their left side occurs. *)
Ltac use_hyps :=
  repeat match goal with H : ?l = _ |- context [?l] => rewrite H end.

Ltac exec := repeat (progress (exec1; use_hyps)).

Ltac tidy_log := rewrite <- ?app_assoc; cbn [app].

(** ** Facts *)

(** *** Facts about the text primitives *)

Lemma digit_val_pretty_N_char (m : N) :
  (m < 10)%N -> digit_val (pretty_N_char m) = Some m.
Proof.
  intros Hm.
  assert (m = 0 \/ m = 1 \/ m = 2 \/ m = 3 \/ m = 4 \/ m = 5 \/ m = 6
          \/ m = 7 \/ m = 8 \/ m = 9)%N as Hcases by lia.
  repeat (destruct Hcases as [-> | Hcases]; [reflexivity |]).
  subst m. reflexivity.
Qed.

Lemma pretty_N_char_not_underscore (m : N) :
  Ascii.eqb (pretty_N_char m) "_" = false.
Proof. unfold pretty_N_char. repeat case_match; reflexivity. Qed.

Lemma pretty_N_char_not_space (m : N) : py_isspace (pretty_N_char m) = false.
Proof. unfold pretty_N_char. repeat case_match; reflexivity. Qed.

(** Reading the digits that [pretty_N_go x] puts in front of [s], starting
    from zero, is reading [s] starting from [x]. *)
Lemma int_digits_pretty_N_go (x : N) :
  forall s, int_digits false 0 (pretty_N_go x s) = int_digits false x s.
Proof.
  induction (N.lt_wf_0 x) as [x _ IH]. intros s.
  destruct (decide (x = 0)%N) as [-> | Hx].
  - now rewrite pretty_N_go_0.
  - rewrite pretty_N_go_step by lia.
    rewrite IH by (apply N.div_lt; lia).
    cbn [int_digits]. rewrite pretty_N_char_not_underscore.
    rewrite digit_val_pretty_N_char by (apply N.mod_lt; lia).
    f_equal. pose proof (N.div_mod x 10). lia.
Qed.

Lemma pretty_N_go_head (x : N) :
  forall s, (0 < x)%N ->
    exists d t, pretty_N_go x s = String (pretty_N_char d) t.
Proof.
  induction (N.lt_wf_0 x) as [x _ IH]. intros s Hx.
  rewrite pretty_N_go_step by exact Hx.
  destruct (decide (x `div` 10 = 0)%N) as [E | E].
  - rewrite E, pretty_N_go_0. eauto.
  - apply IH; [apply N.div_lt; lia |].
    destruct (x `div` 10)%N; [congruence | reflexivity].
Qed.

Lemma no_space_pretty_N_go (x : N) :
  forall s, no_space s = true -> no_space (pretty_N_go x s) = true.
Proof.
  induction (N.lt_wf_0 x) as [x _ IH]. intros s Hs.
  destruct (decide (x = 0)%N) as [-> | Hx].
  - now rewrite pretty_N_go_0.
  - rewrite pretty_N_go_step by lia.
    apply IH; [apply N.div_lt; lia |].
    cbn [no_space]. now rewrite pretty_N_char_not_space, Hs.
Qed.

Lemma no_space_py_str (z : Z) : no_space (py_str z) = true.
Proof.
  unfold py_str, pretty, pretty_Z, pretty, pretty_positive, pretty, pretty_N.
  destruct z as [| p | p]; [reflexivity | |].
  - rewrite decide_False by discriminate. now apply no_space_pretty_N_go.
  - rewrite decide_False by discriminate.
    cbn [String.append no_space]. now apply no_space_pretty_N_go.
Qed.

Lemma lstrip_no_space (s : string) : no_space s = true -> lstrip s = s.
Proof.
  destruct s as [| c s]; [reflexivity |]. cbn.
  now destruct (py_isspace c).
Qed.

Lemma rstrip_no_space (s : string) : no_space s = true -> rstrip s = s.
Proof.
  induction s as [| c s IH]; [reflexivity |]. cbn [no_space rstrip].
  intros [Hc Hs]%andb_prop. rewrite (IH Hs).
  destruct s; [| reflexivity].
  now destruct (py_isspace c).
Qed.

Lemma py_strip_no_space (s : string) : no_space s = true -> py_strip s = s.
Proof.
  intros Hs. unfold py_strip. rewrite (lstrip_no_space _ Hs).
  now apply rstrip_no_space.
Qed.

(** A literal that starts with a digit has no sign. *)
Lemma int_signed_digit_head (d : N) (t : string) :
  int_signed (String (pretty_N_char d) t)
  = int_body false (String (pretty_N_char d) t).
Proof. unfold pretty_N_char. repeat case_match; reflexivity. Qed.

Lemma int_body_pretty_N_go (neg : bool) (p : positive) :
  int_body neg (pretty_N_go (Npos p) "")
  = Some (if neg then Zneg p else Zpos p).
Proof.
  destruct (pretty_N_go_head (Npos p) "") as (d & t & E); [lia |].
  unfold int_body. rewrite E at 1. rewrite pretty_N_char_not_underscore.
  rewrite int_digits_pretty_N_go. cbn [int_digits].
  now destruct neg.
Qed.

Lemma int_signed_py_str (z : Z) : int_signed (py_str z) = Some z.
Proof.
  unfold py_str, pretty, pretty_Z, pretty, pretty_positive, pretty, pretty_N.
  destruct z as [| p | p]; [reflexivity | |].
  - rewrite decide_False by discriminate.
    destruct (pretty_N_go_head (Npos p) "") as (d & t & E); [lia |].
    rewrite E, int_signed_digit_head, <- E.
    apply (int_body_pretty_N_go false).
  - rewrite decide_False by discriminate.
    cbn [String.append int_signed]. cbn.
    apply (int_body_pretty_N_go true).
Qed.

(** What the spawn path writes is read back by the detection path. *)
Lemma py_int_strip_str (z : Z) : py_int (py_strip (py_str z)) = Some z.
Proof.
  unfold py_int.
  rewrite !(py_strip_no_space _ (no_space_py_str z)).
  apply int_signed_py_str.
Qed.

Example py_int_plain : py_int "12345" = Some 12345. Proof. reflexivity. Qed.
Example py_int_padded : py_int (py_strip "  -42
") = Some (-42). Proof. reflexivity. Qed.
Example py_int_underscore : py_int "1_000" = Some 1000. Proof. reflexivity. Qed.
Example py_int_bad_underscore : py_int "1__0" = None. Proof. reflexivity. Qed.
Example py_int_empty : py_int "" = None. Proof. reflexivity. Qed.
Example py_int_words : py_int "not a pid" = None. Proof. reflexivity. Qed.
Example py_str_neg : py_str (-5173) = "-5173". Proof. reflexivity. Qed.

(** Where [py_int] and the interpreter part: 4301 digits are a number for
    the one and beyond the limit for the other. *)
Example literal_beyond_limit :
  within_int_limit (string_of_list_ascii (repeat "9"%char 4300)) = true /\
  within_int_limit (string_of_list_ascii (repeat "9"%char 4301)) = false /\
  py_int (string_of_list_ascii (repeat "9"%char 4301))
    = Some (10 ^ 4301 - 1).
Proof. split; [| split]; vm_compute; reflexivity. Qed.

Example run_fresh :
  fst (main 5 (calm 0) (boot installed)) = Return 0.
Proof. vm_compute. reflexivity. Qed.

Example run_fresh_log :
  st_log (snd (main 5 (calm 0) (boot installed))) =
  [ Print "=== Kijko Python Launcher ===";
    Print "App Directory: /home/david/Projects/Kijko/MVP/MVP_Kijko";
    Print "Node Binary: /home/david/.nvm/versions/node/v24.4.1/bin/node";
    Print "NPM Binary: /home/david/.nvm/versions/node/v24.4.1/bin/npm";
    Chdir APP_DIR;
    Print "Starting Kijko app...";
    Popen ARGV APP_DIR (child_env (e_environ (calm 0)));
    WriteFile PID_FILE "31337";
    Print "Kijko app started with PID: 31337";
    Print "PID saved to /tmp/kijko-app.pid";
    Print "Waiting for server to start...";
    Sleep 3;
    Print "Opening browser...";
    BrowserOpen "http://localhost:5173";
    Print "Kijko app is now running!";
    Print "Use the close button in the app or run kill-kijko.sh to stop it.";
    Readline; Print "VITE ready";
    Readline; Print "Local: http://localhost:5173/";
    Readline; Poll;
    Remove PID_FILE ].
Proof. vm_compute. reflexivity. Qed.

(** The marker holds ["999999"] and no such process exists. *)
Example run_stale :
  fst (main 5 (calm 0) (boot (with_marker "999999"))) = Return 0 /\
  st_fs (snd (main 5 (calm 0) (boot (with_marker "999999")))) = installed /\
  st_log (snd (main 5 (calm 0) (boot (with_marker "999999")))) =
    banner ++ [ Kill 999999 0; Remove PID_FILE; Print "Starting Kijko app..." ]
    ++ spawn_events 31337 (child_env (e_environ (calm 0)))
    ++ monitored (calm 0) 2 ++ [ Remove PID_FILE ].
Proof. repeat split; vm_compute; reflexivity. Qed.

(** The marker holds the identifier of a live process. *)
Example run_twice :
  main 5 (calm 0) (boot (with_marker "4242")) =
    (Return 0,
     {| st_fs := with_marker "4242"; st_cwd := APP_DIR;
        st_log := banner ++
          [ Kill 4242 0; Print "Kijko app is already running (PID: 4242)";
            BrowserOpen "http://localhost:5173" ] |}).
Proof. vm_compute. reflexivity. Qed.

(** Without fuel for the iteration in which the child exits, the run is
    still in its loop. *)
Example run_short_of_fuel :
  fst (main 2 (calm 0) (boot installed)) = Running.
Proof. vm_compute. reflexivity. Qed.

Example run_fresh_fs :
  st_fs (snd (main 5 (calm 0) (boot installed))) !! PID_FILE = None.
Proof. vm_compute. reflexivity. Qed.

(** ** What a block adds to the record *)

Create HintDb emits.

Section Emits.

Context {A : Type} (P : event -> Prop).

Lemma emits_nothing (m : M A) :
  (forall env st, snd (m env st) = st) -> emits P m.
Proof.
  intros H env st. exists []. rewrite H, app_nil_r. now split.
Qed.

Lemma emits_one (m : M A) ev :
  (forall env st, st_log (snd (m env st)) = st_log st ++ [ev]) ->
  P ev -> emits P m.
Proof.
  intros H Hev env st. exists [ev]. split; [apply H | now constructor].
Qed.

Lemma emits_ret (a : A) : emits P (ret a).
Proof. now apply emits_nothing. Qed.

Lemma emits_return code : emits P (return_ code : M A).
Proof. now apply emits_nothing. Qed.

Lemma emits_raise e : emits P (raise e : M A).
Proof. now apply emits_nothing. Qed.

Lemma emits_running : emits P (running : M A).
Proof. now apply emits_nothing. Qed.

Lemma emits_bind {B} (m : M B) (k : B -> M A) :
  emits P m -> (forall b, emits P (k b)) -> emits P (bind m k).
Proof.
  intros Hm Hk env st. unfold bind.
  destruct (Hm env st) as (evs & E & F).
  destruct (m env st) as [[b | c | e |] st1]; cbn [snd] in *;
    try (exists evs; now split).
  destruct (Hk b env st1) as (evs' & E' & F').
  exists (evs ++ evs'). split.
  - now rewrite E', E, app_assoc.
  - now apply Forall_app.
Qed.

Lemma emits_try (body : M A) clauses :
  emits P body ->
  (forall e handler, clauses e = Some handler -> emits P handler) ->
  emits P (try_except body clauses).
Proof.
  intros Hb Hc env st. unfold try_except.
  destruct (Hb env st) as (evs & E & F).
  destruct (body env st) as [[b | c | e |] st1]; cbn [snd] in *;
    try (exists evs; now split).
  destruct (clauses e) as [handler |] eqn:Hh; [| exists evs; now split].
  destruct (Hc e handler Hh env st1) as (evs' & E' & F').
  exists (evs ++ evs'). split.
  - now rewrite E', E, app_assoc.
  - now apply Forall_app.
Qed.

Lemma emits_if (b : bool) (m1 m2 : M A) :
  emits P m1 -> emits P m2 -> emits P (if b then m1 else m2).
Proof. now destruct b. Qed.

End Emits.

Section EmitsCalls.

Context (P : event -> Prop).

Lemma emits_print line : P (Print line) -> emits P (print line).
Proof. now apply emits_one. Qed.

Lemma emits_os_environ_copy : emits P os_environ_copy.
Proof. now apply emits_nothing. Qed.

Lemma emits_os_path_exists path : emits P (os_path_exists path).
Proof. now apply emits_nothing. Qed.

Lemma emits_read_text path : emits P (read_text path).
Proof.
  apply emits_nothing. intros env st. unfold read_text.
  now destruct (st_fs st !! path) as [[] |].
Qed.

Lemma emits_int_ text : emits P (int_ text).
Proof.
  unfold int_. destruct (py_int text); [apply emits_ret | apply emits_raise].
Qed.

Lemma emits_write_text path content :
  P (WriteFile path content) -> emits P (write_text path content).
Proof.
  apply emits_one. intros env st. unfold write_text. cbn.
  now destruct (st_fs st !! path) as [[] |].
Qed.

Lemma emits_os_remove path : P (Remove path) -> emits P (os_remove path).
Proof.
  apply emits_one. intros env st. unfold os_remove. cbn.
  now destruct (st_fs st !! path) as [[] |].
Qed.

Lemma emits_os_kill pid sig : P (Kill pid sig) -> emits P (os_kill pid sig).
Proof.
  apply emits_one. intros env st. unfold os_kill.
  now destruct (kill0_raises env pid).
Qed.

Lemma emits_webbrowser_open url :
  P (BrowserOpen url) -> emits P (webbrowser_open url).
Proof.
  apply emits_one. intros env st. unfold webbrowser_open.
  now destruct (e_browser env).
Qed.

Lemma emits_time_sleep secs : P (Sleep secs) -> emits P (time_sleep secs).
Proof.
  apply emits_one. intros env st. unfold time_sleep.
  now destruct (e_sleep env).
Qed.

Lemma emits_subprocess_Popen argv cwd cenv :
  P (Popen argv cwd cenv) -> emits P (subprocess_Popen argv cwd cenv).
Proof.
  apply emits_one. intros env st. unfold subprocess_Popen.
  now destruct (e_popen env).
Qed.

Lemma emits_stdout_readline i : P Readline -> emits P (stdout_readline i).
Proof.
  apply emits_one. intros env st. unfold stdout_readline.
  now destruct (e_readline env i).
Qed.

Lemma emits_process_poll i : P Poll -> emits P (process_poll i).
Proof.
  apply emits_one. intros env st. unfold process_poll.
  now destruct (e_poll env i).
Qed.

End EmitsCalls.

#[local] Hint Resolve emits_ret emits_return emits_raise emits_running
  emits_bind emits_try emits_if emits_print emits_os_environ_copy
  emits_os_path_exists emits_read_text emits_int_ emits_write_text
  emits_os_remove emits_os_kill emits_webbrowser_open emits_time_sleep
  emits_subprocess_Popen emits_stdout_readline emits_process_poll : emits.

Ltac emits_auto :=
  repeat first
    [ progress intros
    | exact I
    | apply emits_bind | apply emits_try | apply emits_if
    | match goal with
      | H : (if ?b then _ else _) = Some _ |- _ =>
          destruct b; [injection H as <- | try discriminate]
      | H : Some _ = Some _ |- _ => injection H as <-
      | H : None = Some _ |- _ => discriminate H
      end
    | solve [auto with emits]
    | solve [ first
        [ apply emits_print | apply emits_write_text | apply emits_os_remove
        | apply emits_os_kill | apply emits_webbrowser_open
        | apply emits_time_sleep | apply emits_subprocess_Popen
        | apply emits_stdout_readline | apply emits_process_poll ];
        exact I ] ].

Lemma emits_check_running : emits detection_event check_running.
Proof. unfold check_running. emits_auto. Qed.

Lemma emits_cleanup : emits any_event cleanup.
Proof. unfold cleanup. emits_auto. Qed.

Lemma emits_monitor fuel : forall i, emits any_event (monitor fuel i).
Proof.
  induction fuel as [| fuel IH]; intros i; cbn [monitor]; emits_auto.
Qed.

Lemma emits_launch_clauses e handler :
  launch_clauses e = Some handler -> emits any_event handler.
Proof. unfold launch_clauses. emits_auto. Qed.

Lemma emits_guarded body : emits any_event body -> emits any_event (guarded body).
Proof.
  intros Hb. unfold guarded. emits_auto. eapply emits_launch_clauses; eauto.
Qed.

Section Opens.

Context {A : Type} (ev : event).

Lemma opens_bind {B} (m : M B) (k : B -> M A) :
  opens_with ev m -> (forall b, emits any_event (k b)) ->
  opens_with ev (bind m k).
Proof.
  intros Hm Hk env st. unfold bind. destruct (Hm env st) as (rest & E).
  destruct (m env st) as [[b | c | e |] st1]; cbn [snd] in *;
    try (now exists rest).
  destruct (Hk b env st1) as (evs & E' & _).
  exists (rest ++ evs). now rewrite E', E, <- app_assoc.
Qed.

Lemma opens_try (body : M A) clauses :
  opens_with ev body ->
  (forall e handler, clauses e = Some handler -> emits any_event handler) ->
  opens_with ev (try_except body clauses).
Proof.
  intros Hb Hc env st. unfold try_except. destruct (Hb env st) as (rest & E).
  destruct (body env st) as [[b | c | e |] st1]; cbn [snd] in *;
    try (now exists rest).
  destruct (clauses e) as [handler |] eqn:Hh; [| now exists rest].
  destruct (Hc e handler Hh env st1) as (evs & E' & _).
  exists (rest ++ evs). now rewrite E', E, <- app_assoc.
Qed.

End Opens.

Lemma opens_stdout_readline i : opens_with Readline (stdout_readline i).
Proof.
  intros env st. exists []. unfold stdout_readline.
  now destruct (e_readline env i).
Qed.

(** Once entered, the loop starts by reading from the child. *)
Lemma opens_guarded_loop fuel :
  opens_with Readline (guarded (monitor (S fuel) 0 ;; cleanup)).
Proof.
  unfold guarded. cbn [monitor].
  apply opens_bind; [| emits_auto].
  apply opens_try; [| apply emits_launch_clauses].
  apply opens_bind; [| intros; apply emits_cleanup].
  apply opens_bind; [apply opens_stdout_readline |].
  pose proof (emits_monitor fuel). emits_auto.
Qed.

(** ** Running the launcher phase by phase *)

Section Phases.

Variable env : Env.

Lemma preamble_run st :
  st_fs st !! APP_DIR = Some Dir -> preamble env st = (Val tt, entered st).
Proof.
  intros H. unfold preamble, entered, banner. exec. now tidy_log.
Qed.

Lemma check_binaries_pass st :
  path_exists (st_fs st) NODE = true -> path_exists (st_fs st) NPM = true ->
  check_binaries env st = (Val tt, st).
Proof.
  intros H1 H2. unfold check_binaries. now exec.
Qed.

Lemma main_enter fuel st :
  ready st ->
  main fuel env st = (check_running ;; start fuel) env (entered st).
Proof.
  intros (Hd & Hn & Hp). unfold main.
  unfold bind at 1. rewrite (preamble_run _ Hd).
  unfold bind at 1. now rewrite (check_binaries_pass (entered st) Hn Hp).
Qed.


Lemma path_exists_Some (fs : gmap string node) p n :
  fs !! p = Some n -> path_exists fs p = true.
Proof. unfold path_exists. now intros ->. Qed.

Lemma path_exists_None (fs : gmap string node) p :
  fs !! p = None -> path_exists fs p = false.
Proof. unfold path_exists. now intros ->. Qed.

Lemma path_exists_delete (fs : gmap string node) p :
  path_exists (delete p fs) p = false.
Proof. apply path_exists_None, lookup_delete_eq. Qed.

(** *** Duplicate-run detection *)

Lemma check_running_absent st :
  st_fs st !! PID_FILE = None -> check_running env st = (Val tt, st).
Proof.
  intros H. pose proof (path_exists_None _ _ H). unfold check_running.
  now exec.
Qed.


Lemma check_running_stale st text pid e :
  st_fs st !! PID_FILE = Some (File text) ->
  py_int (py_strip text) = Some pid ->
  kill0_raises env pid = Some e ->
  is_OSError e = true ->
  check_running env st =
    (Val tt,
     {| st_fs := delete PID_FILE (st_fs st); st_cwd := st_cwd st;
        st_log := st_log st ++ [ Kill pid 0; Remove PID_FILE ] |}).
Proof.
  intros Hf Hp Hk He. pose proof (path_exists_Some _ _ _ Hf).
  unfold check_running. exec. now tidy_log.
Qed.

Lemma check_running_invalid st text :
  st_fs st !! PID_FILE = Some (File text) ->
  py_int (py_strip text) = None ->
  check_running env st =
    (Val tt,
     {| st_fs := delete PID_FILE (st_fs st); st_cwd := st_cwd st;
        st_log := st_log st ++ [ Remove PID_FILE ] |}).
Proof.
  intros Hf Hp. pose proof (path_exists_Some _ _ _ Hf).
  unfold check_running. now exec.
Qed.

(** However the detection falls through, it leaves no marker behind and
    stays where it is. *)
Lemma check_running_cases st o st' :
  check_running env st = (o, st') -> o = Val tt ->
  st_fs st' !! PID_FILE = None /\ st_cwd st' = st_cwd st.
Proof.
  assert (Hdel : forall l,
    (Val tt, {| st_fs := delete PID_FILE (st_fs st); st_cwd := st_cwd st;
                st_log := l |}) = (o, st') ->
    o = Val tt -> st_fs st' !! PID_FILE = None /\ st_cwd st' = st_cwd st).
  { intros l [= <- <-] _. cbn [st_fs st_cwd].
    split; [apply lookup_delete_eq | reflexivity]. }
  unfold check_running.
  destruct (st_fs st !! PID_FILE) as [[text |] |] eqn:Hf;
    [ pose proof (path_exists_Some _ _ _ Hf) as Hx
    | pose proof (path_exists_Some _ _ _ Hf) as Hx
    | pose proof (path_exists_None _ _ Hf) as Hx ]; exec.
  - destruct (py_int (py_strip text)) as [pid |]; exec.
    + destruct (kill0_raises env pid) as [e |]; exec.
      * destruct (is_OSError e) eqn:He; exec; [apply Hdel |].
        destruct (is_ValueError e || is_FileNotFoundError e) eqn:Hv; exec;
          [apply Hdel | intros [= <- <-] [=]].
      * destruct (e_browser env) as [e |]; exec; [| intros [= <- <-] [=]].
        destruct (is_OSError e) eqn:He; exec; [apply Hdel |].
        destruct (is_ValueError e || is_FileNotFoundError e) eqn:Hv; exec;
          [apply Hdel | intros [= <- <-] [=]].
    + apply Hdel.
  - intros [= <- <-] [=].
  - intros [= <- <-] _. now split.
Qed.

Lemma check_running_falls_through st :
  fst (check_running env st) = Val tt ->
  st_fs (snd (check_running env st)) !! PID_FILE = None /\
  st_cwd (snd (check_running env st)) = st_cwd st.
Proof.
  destruct (check_running env st) as [o st'] eqn:E. cbn [fst snd].
  now apply check_running_cases.
Qed.


(** *** The monitoring loop *)

Lemma monitor_step fuel i st :
  monitor (S fuel) i env st =
    match step_at env i with
    | Goes =>
        monitor fuel (S i) env
          {| st_fs := st_fs st; st_cwd := st_cwd st;
             st_log := st_log st ++ step_events env i |}
    | Ends _ =>
        (Val tt, {| st_fs := st_fs st; st_cwd := st_cwd st;
                    st_log := st_log st ++ step_events env i |})
    | Fails e =>
        (Raise e, {| st_fs := st_fs st; st_cwd := st_cwd st;
                     st_log := st_log st ++ step_events env i |})
    end.
Proof.
  cbn [monitor]. unfold step_at, step_events. exec.
  destruct (e_readline env i) as [e | line]; exec; [reflexivity |].
  destruct (String.eqb line "") eqn:El; exec.
  - destruct (e_poll env i) as [e | [status |]]; exec; now tidy_log.
  - now tidy_log.
Qed.

Lemma monitor_runs n :
  forall i fuel st,
    streams env i n = true -> (n < fuel)%nat ->
    monitor fuel i env st =
      (match step_at env (i + n) with
       | Goes => monitor (fuel - S n) (S (i + n)) env
       | Ends _ => fun st' => (Val tt, st')
       | Fails e => fun st' => (Raise e, st')
       end)
        {| st_fs := st_fs st; st_cwd := st_cwd st;
           st_log := st_log st ++ flat_map (step_events env) (seq i (S n)) |}.
Proof.
  induction n as [| n IH]; intros i fuel st Hs Hf.
  - destruct fuel as [| fuel]; [lia |]. rewrite monitor_step.
    rewrite Nat.add_0_r. replace (S fuel - 1)%nat with fuel by lia.
    cbn [seq flat_map]. rewrite app_nil_r.
    now destruct (step_at env i).
  - destruct fuel as [| fuel]; [lia |]. rewrite monitor_step.
    unfold streams in Hs. cbn [seq forallb] in Hs.
    apply andb_prop in Hs as [Hg Hs]. unfold goes_on in Hg.
    destruct (step_at env i); try discriminate.
    rewrite (IH (S i) fuel) by (assumption || lia).
    cbn [st_fs st_cwd st_log]. rewrite <- app_assoc.
    replace (S i + n)%nat with (i + S n)%nat by lia.
    replace (fuel - S n)%nat with (S fuel - S (S n))%nat by lia.
    reflexivity.
Qed.


(** *** The outer [try] *)

Lemma handled (body : M unit) st e st' :
  body env st = (Raise e, st') ->
  guarded body env st =
    (verdict e, {| st_fs := st_fs st'; st_cwd := st_cwd st';
                   st_log := st_log st' ++ report e |}).
Proof.
  intros Hb. unfold guarded, verdict, report, launch_clauses. exec.
  destruct (is_FileNotFoundError e) eqn:Hn.
  - assert (is_Exception e = true) as ->.
    { unfold is_FileNotFoundError, is_Exception in *.
      now destruct (exn_cls e). }
    exec. now tidy_log.
  - destruct (is_Exception e); exec; [reflexivity |].
    rewrite app_nil_r. now destruct st'.
Qed.

Lemma completed (body : M unit) st st' :
  body env st = (Val tt, st') ->
  guarded body env st = (Return 0, st').
Proof. intros Hb. unfold guarded. now exec. Qed.

Lemma start_run fuel st :
  start fuel env st =
    guarded (launch fuel (child_env (e_environ env))) env
      (record (Print "Starting Kijko app...") st).
Proof. reflexivity. Qed.

(** The spawn itself fails. *)
Lemma launch_spawn_failure fuel cenv st e :
  e_popen env = inl e ->
  launch fuel cenv env st = (Raise e, record (Popen ARGV APP_DIR cenv) st).
Proof. intros He. unfold launch. now exec. Qed.

(** The spawn succeeds and nothing raises before the loop. *)
Lemma launch_enters_loop fuel cenv st pid :
  e_popen env = inr pid -> st_fs st !! PID_FILE = None ->
  e_sleep env = None -> e_browser env = None ->
  launch fuel cenv env st =
    (monitor fuel 0 ;; cleanup) env
      {| st_fs := <[PID_FILE := File (py_str pid)]> (st_fs st);
         st_cwd := st_cwd st;
         st_log := st_log st ++ spawn_events pid cenv |}.
Proof.
  intros Hp Hm Hs Hb. unfold launch, spawn_events. exec. now tidy_log.
Qed.

Lemma cleanup_marker st text :
  st_fs st !! PID_FILE = Some (File text) ->
  cleanup env st =
    (Val tt, {| st_fs := delete PID_FILE (st_fs st); st_cwd := st_cwd st;
                st_log := st_log st ++ [Remove PID_FILE] |}).
Proof.
  intros Hf. pose proof (path_exists_Some _ _ _ Hf). unfold cleanup. now exec.
Qed.

(** The child exits in iteration [n]: the marker goes and the body ends. *)
Lemma launch_completes fuel cenv st pid n status :
  e_popen env = inr pid -> st_fs st !! PID_FILE = None ->
  e_sleep env = None -> e_browser env = None ->
  streams env 0 n = true -> step_at env n = Ends status -> (n < fuel)%nat ->
  launch fuel cenv env st =
    (Val tt,
     {| st_fs := st_fs st; st_cwd := st_cwd st;
        st_log := st_log st ++ spawn_events pid cenv ++ monitored env n
                    ++ [Remove PID_FILE] |}).
Proof.
  intros Hp Hm Hs Hb Hn He Hf.
  rewrite (launch_enters_loop _ _ _ _ Hp Hm Hs Hb).
  unfold bind. rewrite (monitor_runs n 0 fuel _ Hn Hf). cbn [Nat.add].
  rewrite He. cbn [st_fs st_cwd st_log].
  erewrite cleanup_marker by (cbn [st_fs]; apply lookup_insert_eq).
  cbn [st_fs st_cwd st_log].
  rewrite delete_insert_eq, (delete_id _ _ Hm). unfold monitored.
  now rewrite <- !app_assoc.
Qed.

Lemma step_events_no_remove i p : ~ In (Remove p) (step_events env i).
Proof.
  unfold step_events.
  destruct (e_readline env i) as [e | line]; [| destruct (String.eqb line "")];
    cbn; intuition discriminate.
Qed.

Lemma monitored_no_remove n p : ~ In (Remove p) (monitored env n).
Proof.
  unfold monitored. rewrite in_flat_map. intros (i & _ & Hi).
  exact (step_events_no_remove i p Hi).
Qed.

(** An exception after the marker is written: the body raises it, the marker
    stays and nothing removed it. *)
Lemma launch_late_failure fuel cenv st pid n e :
  e_popen env = inr pid -> st_fs st !! PID_FILE = None ->
  late_failure env n = Some e -> (n < fuel)%nat ->
  exists evs,
    launch fuel cenv env st =
      (Raise e,
       {| st_fs := <[PID_FILE := File (py_str pid)]> (st_fs st);
          st_cwd := st_cwd st;
          st_log := st_log st ++ Popen ARGV APP_DIR cenv
                      :: WriteFile PID_FILE (py_str pid) :: evs |})
    /\ ~ In (Remove PID_FILE) evs.
Proof.
  intros Hp Hm Hl Hf. unfold late_failure in Hl.
  destruct (e_sleep env) as [e1 |] eqn:Hs.
  { injection Hl as ->. eexists. split.
    - unfold launch. exec. tidy_log. reflexivity.
    - cbn. intuition discriminate. }
  destruct (e_browser env) as [e2 |] eqn:Hb.
  { injection Hl as ->. eexists. split.
    - unfold launch. exec. tidy_log. reflexivity.
    - cbn. intuition discriminate. }
  destruct (streams env 0 n) eqn:Hn; [| discriminate].
  destruct (step_at env n) as [| status | e3] eqn:He; try discriminate.
  injection Hl as ->.
  exists (skipn 2 (spawn_events pid cenv) ++ monitored env n). split.
  - rewrite (launch_enters_loop _ _ _ _ Hp Hm Hs Hb).
    unfold bind. rewrite (monitor_runs n 0 fuel _ Hn Hf). cbn [Nat.add].
    rewrite He. cbn [st_fs st_cwd st_log]. unfold monitored, spawn_events.
    cbn [skipn]. now tidy_log.
  - rewrite in_app_iff. intros [H | H].
    + cbn in H. intuition discriminate.
    + exact (monitored_no_remove _ _ H).
Qed.

(** *** From [main] to the spawn *)

Lemma main_start fuel st :
  reaches_spawn env st -> main fuel env st = start fuel env (at_spawn env st).
Proof.
  intros [Hr Hv]. rewrite (main_enter _ _ Hr). unfold at_spawn, bind.
  destruct (check_running env (entered st)) as [o st1]. cbn [fst snd] in *.
  now subst o.
Qed.

Lemma at_spawn_no_marker st :
  reaches_spawn env st -> st_fs (at_spawn env st) !! PID_FILE = None.
Proof. intros [_ Hv]. now apply check_running_falls_through. Qed.

(** Up to the spawn the run has performed the banner and actions of the
    detection only. *)
Lemma at_spawn_log st :
  exists det,
    st_log (at_spawn env st) = st_log st ++ banner ++ det /\
    Forall detection_event det.
Proof.
  destruct (emits_check_running env (entered st)) as (det & E & F).
  exists det. split; [| exact F].
  unfold at_spawn. rewrite E. cbn [entered st_log]. now rewrite app_assoc.
Qed.

Lemma opens_subprocess_Popen argv cwd cenv :
  opens_with (Popen argv cwd cenv) (subprocess_Popen argv cwd cenv).
Proof.
  intros env' st. exists []. unfold subprocess_Popen.
  now destruct (e_popen env').
Qed.

Lemma emits_launch fuel cenv : emits any_event (launch fuel cenv).
Proof. pose proof (emits_monitor fuel). unfold launch, cleanup. emits_auto. Qed.

(** Whatever happens next, the spawn phase announces itself and calls
    [Popen]. *)
Lemma start_attempts_spawn fuel st :
  exists rest,
    st_log (snd (start fuel env st)) =
      st_log st ++ Print "Starting Kijko app..."
        :: Popen ARGV APP_DIR (child_env (e_environ env)) :: rest.
Proof.
  rewrite start_run.
  assert (opens_with (Popen ARGV APP_DIR (child_env (e_environ env)))
            (guarded (launch fuel (child_env (e_environ env))))) as Ho.
  { unfold guarded. apply opens_bind; [| emits_auto].
    apply opens_try; [| apply emits_launch_clauses].
    unfold launch. apply opens_bind; [apply opens_subprocess_Popen |].
    pose proof (emits_monitor fuel). unfold cleanup. emits_auto. }
  destruct (Ho env (record (Print "Starting Kijko app...") st)) as (rest & E).
  exists rest. rewrite E. cbn [record st_log]. now rewrite <- app_assoc.
Qed.

(** Three ways to reach the spawn: no marker, a stale one, an invalid one. *)
Lemma reaches_spawn_fresh st :
  ready st -> st_fs st !! PID_FILE = None -> reaches_spawn env st.
Proof.
  intros Hr Hf. split; [exact Hr |].
  now rewrite (check_running_absent (entered st) Hf).
Qed.

Lemma reaches_spawn_stale st text pid e :
  ready st ->
  st_fs st !! PID_FILE = Some (File text) ->
  py_int (py_strip text) = Some pid ->
  kill0_raises env pid = Some e -> is_OSError e = true ->
  reaches_spawn env st.
Proof.
  intros Hr Hf Hp Hk He. split; [exact Hr |].
  now rewrite (check_running_stale (entered st) text pid e Hf Hp Hk He).
Qed.

Lemma reaches_spawn_invalid st text :
  ready st ->
  st_fs st !! PID_FILE = Some (File text) ->
  py_int (py_strip text) = None ->
  reaches_spawn env st.
Proof.
  intros Hr Hf Hp. split; [exact Hr |].
  now rewrite (check_running_invalid (entered st) text Hf Hp).
Qed.

End Phases.

(** ** The launcher's properties *)

(** *** Already running *)



(** *** Stale and invalid markers *)

(** C2.  If the marker file holds an integer [pid] that fits a process
    identifier and the process table knows no such process, [main] deletes
    the marker file and goes on with the spawn phase: its next actions are
    the announcement and the call of [Popen]. *)
Theorem stale_marker_removed_then_spawn fuel env st text pid :
  ready st ->
  st_fs st !! PID_FILE = Some (File text) ->
  py_int (py_strip text) = Some pid ->
  fits_pid_t pid = true ->
  e_probe env pid = NoSuchProcess ->
  let st1 :=
    {| st_fs := delete PID_FILE (st_fs st); st_cwd := APP_DIR;
       st_log := st_log st ++ banner ++ [Kill pid 0; Remove PID_FILE] |} in
  main fuel env st = start fuel env st1 /\
  exists rest,
    st_log (snd (main fuel env st)) =
      st_log st1 ++ Print "Starting Kijko app..."
        :: Popen ARGV APP_DIR (child_env (e_environ env)) :: rest.
Proof.
  intros Hr Hf Hp Hfit Hprobe st1.
  assert (main fuel env st = start fuel env st1) as E.
  { rewrite (main_enter env fuel st Hr). unfold bind.
    rewrite (check_running_stale env (entered st) text pid
               (Exn ProcessLookupError "[Errno 3] No such process") Hf Hp);
      [| unfold kill0_raises; now rewrite Hfit, Hprobe | reflexivity].
    subst st1. cbn [entered st_fs st_cwd st_log]. now rewrite <- app_assoc. }
  split; [exact E |]. rewrite E. apply start_attempts_spawn.
Qed.

Lemma stale_marker_removed_then_spawn_witness :
  st_fs (snd (main 5 (calm 0) (boot (with_marker "999999")))) !! PID_FILE = None
  /\ exists rest,
       st_log (snd (main 5 (calm 0) (boot (with_marker "999999")))) =
         (banner ++ [Kill 999999 0; Remove PID_FILE])
         ++ Print "Starting Kijko app..."
         :: Popen ARGV APP_DIR (child_env (e_environ (calm 0))) :: rest.
Proof.
  split; [vm_compute; reflexivity |].
  apply (stale_marker_removed_then_spawn 5 (calm 0)
           (boot (with_marker "999999")) "999999" 999999);
    try (vm_compute; reflexivity).
  repeat split; vm_compute; reflexivity.
Defined.

(** C3.  If the marker file exists and its content is no integer literal,
    [main] does not treat the application as running: it probes nothing and
    opens no browser, removes the marker file and goes on with the spawn
    phase. *)
Theorem invalid_marker_removed_then_spawn fuel env st text :
  ready st ->
  st_fs st !! PID_FILE = Some (File text) ->
  py_int (py_strip text) = None ->
  let st1 :=
    {| st_fs := delete PID_FILE (st_fs st); st_cwd := APP_DIR;
       st_log := st_log st ++ banner ++ [Remove PID_FILE] |} in
  main fuel env st = start fuel env st1 /\
  exists rest,
    st_log (snd (main fuel env st)) =
      st_log st1 ++ Print "Starting Kijko app..."
        :: Popen ARGV APP_DIR (child_env (e_environ env)) :: rest.
Proof.
  intros Hr Hf Hp st1.
  assert (main fuel env st = start fuel env st1) as E.
  { rewrite (main_enter env fuel st Hr). unfold bind.
    rewrite (check_running_invalid env (entered st) text Hf Hp).
    subst st1. cbn [entered st_fs st_cwd st_log]. now rewrite <- app_assoc. }
  split; [exact E |]. rewrite E. apply start_attempts_spawn.
Qed.

Lemma invalid_marker_removed_then_spawn_witness :
  py_int (py_strip "not a pid") = None /\
  exists rest,
    st_log (snd (main 5 (calm 0) (boot (with_marker "not a pid")))) =
      (banner ++ [Remove PID_FILE])
      ++ Print "Starting Kijko app..."
      :: Popen ARGV APP_DIR (child_env (e_environ (calm 0))) :: rest.
Proof.
  split; [reflexivity |].
  apply (invalid_marker_removed_then_spawn 5 (calm 0)
           (boot (with_marker "not a pid")) "not a pid");
    try (vm_compute; reflexivity).
  repeat split; vm_compute; reflexivity.
Defined.

(** *** Missing executables *)

(** C4, as the code has it.  Where the application directory exists, so that
    the change of directory at the start of [main] succeeds, and the Node or
    the NPM executable does not exist, [main] returns 1 after printing which
    one is missing; the file system is untouched (no marker file is created)
    and, apart from the console output, the only thing done is that change
    of directory. *)
Theorem missing_executable_returns_1 fuel env st :
  st_fs st !! APP_DIR = Some Dir ->
  path_exists (st_fs st) NODE = false \/ path_exists (st_fs st) NPM = false ->
  main fuel env st =
    (Return 1,
     {| st_fs := st_fs st; st_cwd := APP_DIR;
        st_log := st_log st ++ banner ++ missing_report (st_fs st) |}).
Proof.
  intros Hd Hm. unfold main. unfold bind at 1. rewrite (preamble_run env _ Hd).
  unfold check_binaries, missing_report, entered.
  destruct (path_exists (st_fs st) NODE) eqn:Hn.
  - destruct Hm as [Hm | Hm]; [discriminate |]. exec. now tidy_log.
  - exec. now tidy_log.
Qed.

Lemma missing_executable_returns_1_witness :
  main 5 (calm 0) (boot no_npm) =
    (Return 1,
     {| st_fs := no_npm; st_cwd := APP_DIR;
        st_log := banner ++
          [ Print "Error: NPM not found at /home/david/.nvm/versions/node/v24.4.1/bin/npm";
            Print "Please check your NPM installation" ] |}).
Proof.
  apply (missing_executable_returns_1 5 (calm 0) (boot no_npm)).
  - vm_compute. reflexivity.
  - right. vm_compute. reflexivity.
Defined.

(** C4 as stated fails: without the application directory [main] raises
    [FileNotFoundError] from [os.chdir] before it looks at the executables,
    and does not return; and where it does return 1, it has changed the
    working directory. *)
Lemma missing_executable_without_app_dir :
  path_exists ∅ NODE = false /\
  fst (main 5 (calm 0) (boot ∅)) =
    Raise (Exn FileNotFoundError
             ("[Errno 2] No such file or directory: " +:+ APP_DIR)) /\
  fst (main 5 (calm 0) (boot ∅)) <> Return 1 /\
  st_cwd (boot no_runtime) = "/home/david" /\
  st_cwd (snd (main 5 (calm 0) (boot no_runtime))) = APP_DIR.
Proof.
  repeat split; try (vm_compute; reflexivity).
  vm_compute. discriminate.
Qed.

(** *** The child exits *)

(** C5.  On a run that reaches the spawn, with the child started and the
    delay and the browser call returning: if the loop runs through [n]
    iterations and then meets the end of the stream with the child exited,
    [main] (given fuel for those iterations) deletes the marker file as its
    last action and returns 0; the marker file does not exist afterwards. *)
Theorem child_exit_removes_marker fuel env st pid n status :
  reaches_spawn env st ->
  e_popen env = inr pid ->
  e_sleep env = None ->
  e_browser env = None ->
  streams env 0 n = true ->
  step_at env n = Ends status ->
  (n < fuel)%nat ->
  fst (main fuel env st) = Return 0 /\
  st_fs (snd (main fuel env st)) !! PID_FILE = None /\
  exists evs,
    st_log (snd (main fuel env st)) =
      st_log st ++ evs ++ [Remove PID_FILE] /\
    In (WriteFile PID_FILE (py_str pid)) evs.
Proof.
  intros Hr Hp Hs Hb Hn He Hf.
  pose proof (at_spawn_no_marker env st Hr) as Hm.
  destruct (at_spawn_log env st) as (det & Hl & _).
  rewrite (main_start env fuel st Hr), start_run.
  erewrite completed; cycle 1.
  { apply (launch_completes env fuel _ _ pid n status); assumption. }
  cbn [fst snd st_fs st_log record]. repeat split; [exact Hm |].
  exists (banner ++ det ++ Print "Starting Kijko app..."
            :: spawn_events pid (child_env (e_environ env)) ++ monitored env n).
  split.
  - rewrite Hl. rewrite <- !app_assoc. cbn [app]. now rewrite <- !app_assoc.
  - apply in_or_app. right. apply in_or_app. right. cbn [In]. right.
    apply in_or_app. left. unfold spawn_events. cbn [In]. tauto.
Qed.

Lemma child_exit_removes_marker_witness :
  fst (main 5 (calm 0) (boot (with_marker "999999"))) = Return 0 /\
  st_fs (snd (main 5 (calm 0) (boot (with_marker "999999")))) !! PID_FILE
    = None.
Proof.
  destruct (child_exit_removes_marker 5 (calm 0)
              (boot (with_marker "999999")) 31337 2 0) as (H1 & H2 & _);
    [ repeat split; vm_compute; reflexivity
    | reflexivity | reflexivity | reflexivity
    | vm_compute; reflexivity | vm_compute; reflexivity | lia | ].
  exact (conj H1 H2).
Defined.

(** C9.  Whatever exit status the child reports when the loop meets the end
    of the stream, zero or not, [main] returns 0. *)
Theorem exit_status_ignored fuel env st pid n :
  reaches_spawn env st ->
  e_popen env = inr pid ->
  e_sleep env = None ->
  e_browser env = None ->
  streams env 0 n = true ->
  (n < fuel)%nat ->
  forall status : Z,
    step_at env n = Ends status ->
    fst (main fuel env st) = Return 0.
Proof.
  intros Hr Hp Hs Hb Hn Hf status He.
  pose proof (at_spawn_no_marker env st Hr) as Hm.
  rewrite (main_start env fuel st Hr), start_run.
  erewrite completed; [reflexivity |].
  apply (launch_completes env fuel _ _ pid n status); assumption.
Qed.

Lemma exit_status_ignored_witness :
  step_at (calm 1) 2 = Ends 1 /\
  fst (main 5 (calm 1) (boot installed)) = Return 0.
Proof.
  split; [reflexivity |].
  apply (exit_status_ignored 5 (calm 1) (boot installed) 31337 2)
    with (status := 1);
    [ repeat split; vm_compute; reflexivity
    | reflexivity | reflexivity | reflexivity
    | vm_compute; reflexivity | lia | reflexivity ].
Defined.

(** *** The order of the effects on the spawn path *)

Lemma guarded_same (body1 body2 : M unit) env st1 st2 :
  body1 env st1 = body2 env st2 ->
  guarded body1 env st1 = guarded body2 env st2.
Proof. intros E. unfold guarded, bind, try_except. now rewrite E. Qed.

Lemma not_In_detection det :
  Forall detection_event det -> ~ In Readline det.
Proof.
  intros F H. rewrite Forall_forall in F. apply list_elem_of_In in H.
  exact (F _ H).
Qed.

(** C6.  On a run that reaches the spawn, with the child started and the
    delay and the browser call returning, the actions are, in this order and
    with only console output in between: the spawn, the writing of the
    child's identifier to the marker file right after it, the delay of 3,
    the opening of the browser at [http://localhost:5173]; nothing is read
    from the child before that, and the first thing done afterwards (given
    fuel for one iteration) is to read a line. *)
Theorem spawn_effects_in_order fuel env st pid :
  reaches_spawn env st ->
  e_popen env = inr pid ->
  e_sleep env = None ->
  e_browser env = None ->
  exists before rest,
    st_log (snd (main fuel env st)) =
      st_log st ++ before ++
      [ Popen ARGV APP_DIR (child_env (e_environ env));
        WriteFile PID_FILE (py_str pid);
        Print ("Kijko app started with PID: " +:+ py_str pid);
        Print ("PID saved to " +:+ PID_FILE);
        Print "Waiting for server to start...";
        Sleep 3;
        Print "Opening browser...";
        BrowserOpen "http://localhost:5173";
        Print "Kijko app is now running!";
        Print "Use the close button in the app or run kill-kijko.sh to stop it." ]
      ++ rest
    /\ ~ In Readline before
    /\ ((0 < fuel)%nat -> exists rest', rest = Readline :: rest').
Proof.
  intros Hr Hp Hs Hb.
  pose proof (at_spawn_no_marker env st Hr) as Hm.
  destruct (at_spawn_log env st) as (det & Hl & Hdet).
  rewrite (main_start env fuel st Hr), start_run.
  erewrite guarded_same; cycle 1.
  { apply (launch_enters_loop env fuel _ _ pid); assumption. }
  set (st2 := {| st_fs := _; st_cwd := _; st_log := _ |}).
  assert (exists rest,
    st_log (snd (guarded (monitor fuel 0 ;; cleanup) env st2)) =
      st_log st2 ++ rest /\
    ((0 < fuel)%nat -> exists rest', rest = Readline :: rest'))
    as (rest & E & Hfirst).
  { destruct fuel as [| fuel].
    - destruct (emits_guarded (monitor 0 0 ;; cleanup)
                  ltac:(pose proof (emits_monitor 0); pose proof emits_cleanup;
                        emits_auto) env st2) as (rest & E & _).
      exists rest. split; [exact E | lia].
    - destruct (opens_guarded_loop fuel env st2) as (rest' & E).
      exists (Readline :: rest'). split; [exact E | eauto]. }
  exists (banner ++ det ++ [Print "Starting Kijko app..."]), rest.
  repeat split; [| | exact Hfirst].
  - rewrite E. subst st2. cbn [st_log record]. rewrite Hl.
    unfold spawn_events. rewrite <- !app_assoc. reflexivity.
  - rewrite !in_app_iff. intros [H | [H | H]].
    + cbn in H. intuition discriminate.
    + exact (not_In_detection det Hdet H).
    + cbn in H. intuition discriminate.
Qed.

Lemma spawn_effects_in_order_witness :
  exists before rest,
    st_log (snd (main 5 (calm 0) (boot installed))) =
      before ++
      [ Popen ARGV APP_DIR (child_env (e_environ (calm 0)));
        WriteFile PID_FILE "31337";
        Print "Kijko app started with PID: 31337";
        Print "PID saved to /tmp/kijko-app.pid";
        Print "Waiting for server to start...";
        Sleep 3;
        Print "Opening browser...";
        BrowserOpen "http://localhost:5173";
        Print "Kijko app is now running!";
        Print "Use the close button in the app or run kill-kijko.sh to stop it." ]
      ++ rest
    /\ ~ In Readline before.
Proof.
  destruct (spawn_effects_in_order 5 (calm 0) (boot installed) 31337)
    as (before & rest & E & Hb & _);
    [ repeat split; vm_compute; reflexivity
    | reflexivity | reflexivity | reflexivity | ].
  exists before, rest. split; [exact E | exact Hb].
Defined.

(** *** Exceptions during spawn and monitoring *)

Lemma report_no_remove e p : ~ In (Remove p) (report e).
Proof.
  unfold report.
  destruct (is_FileNotFoundError e); [| destruct (is_Exception e)];
    cbn; intuition discriminate.
Qed.

(** How the run ends when, after a successful spawn, something raises. *)
Lemma main_late_failure fuel env st pid n e :
  reaches_spawn env st ->
  e_popen env = inr pid ->
  late_failure env n = Some e ->
  (n < fuel)%nat ->
  exists evs,
    main fuel env st =
      (verdict e,
       {| st_fs := <[PID_FILE := File (py_str pid)]> (st_fs (at_spawn env st));
          st_cwd := st_cwd (at_spawn env st);
          st_log := (st_log (at_spawn env st)
                       ++ Print "Starting Kijko app..."
                       :: Popen ARGV APP_DIR (child_env (e_environ env))
                       :: WriteFile PID_FILE (py_str pid) :: evs)
                    ++ report e |})
    /\ ~ In (Remove PID_FILE) evs.
Proof.
  intros Hr Hp Hl Hf.
  pose proof (at_spawn_no_marker env st Hr) as Hm.
  rewrite (main_start env fuel st Hr), start_run.
  destruct (launch_late_failure env fuel (child_env (e_environ env))
              (record (Print "Starting Kijko app...") (at_spawn env st))
              pid n e Hp Hm Hl Hf) as (evs & E & Hno).
  exists evs. split; [| exact Hno].
  rewrite (handled env _ _ _ _ E). cbn [st_fs st_cwd st_log record].
  now rewrite <- !app_assoc.
Qed.

(** How the run ends when the spawn itself raises. *)
Lemma main_spawn_failure fuel env st e :
  reaches_spawn env st ->
  e_popen env = inl e ->
  main fuel env st =
    (verdict e,
     {| st_fs := st_fs (at_spawn env st);
        st_cwd := st_cwd (at_spawn env st);
        st_log := (st_log (at_spawn env st)
                     ++ [ Print "Starting Kijko app...";
                          Popen ARGV APP_DIR (child_env (e_environ env)) ])
                  ++ report e |}).
Proof.
  intros Hr Hp. rewrite (main_start env fuel st Hr), start_run.
  rewrite (handled env _ _ _ _ (launch_spawn_failure env fuel _ _ e Hp)).
  cbn [st_fs st_cwd st_log record]. now rewrite <- !app_assoc.
Qed.




(** C8, as the code has it.  On a run that reaches the spawn and starts the
    child, let [e] be the exception raised by the delay, the browser call or
    the monitoring loop.  Then the marker file written after the spawn is
    never removed and still holds the child's identifier when [main] ends;
    [main] returns 1 if [e] derives from [Exception], and otherwise [e]
    leaves [main]. *)
Theorem failure_after_marker_keeps_it fuel env st pid n e :
  reaches_spawn env st ->
  e_popen env = inr pid ->
  late_failure env n = Some e ->
  (n < fuel)%nat ->
  fst (main fuel env st) = (if is_Exception e then Return 1 else Raise e) /\
  st_fs (snd (main fuel env st)) !! PID_FILE = Some (File (py_str pid)) /\
  exists before after,
    st_log (snd (main fuel env st)) =
      st_log st ++ before ++ WriteFile PID_FILE (py_str pid) :: after /\
    ~ In (Remove PID_FILE) after.
Proof.
  intros Hr Hp Hl Hf.
  destruct (at_spawn_log env st) as (det & Hlog & _).
  destruct (main_late_failure fuel env st pid n e Hr Hp Hl Hf)
    as (evs & E & Hno).
  rewrite E. cbn [fst snd st_fs st_log].
  split; [reflexivity |]. split; [apply lookup_insert_eq |].
  exists (banner ++ det ++
            [ Print "Starting Kijko app...";
              Popen ARGV APP_DIR (child_env (e_environ env)) ]),
         (evs ++ report e).
  split.
  - rewrite Hlog. rewrite <- !app_assoc. reflexivity.
  - rewrite in_app_iff. intros [H | H]; [exact (Hno H) |].
    exact (report_no_remove e PID_FILE H).
Qed.

Lemma failure_after_marker_keeps_it_witness :
  fst (main 5 broken_pipe (boot installed)) = Return 1 /\
  st_fs (snd (main 5 broken_pipe (boot installed))) !! PID_FILE
    = Some (File "31337").
Proof.
  destruct (failure_after_marker_keeps_it 5 broken_pipe (boot installed)
              31337 1 (Exn OSError "[Errno 5] Input/output error"))
    as (H1 & H2 & _);
    [ repeat split; vm_compute; reflexivity
    | reflexivity | vm_compute; reflexivity | lia | ].
  exact (conj H1 H2).
Defined.

(** C8 as stated fails: an interrupt while the launcher reads from the child
    comes after the marker is written, and [main] does not return 1; the
    exception leaves [main] (the marker stays all the same). *)
Lemma interrupt_while_reading_not_1 :
  late_failure interrupted_reading 1 = Some (Exn KeyboardInterrupt "") /\
  fst (main 5 interrupted_reading (boot installed))
    = Raise (Exn KeyboardInterrupt "") /\
  fst (main 5 interrupted_reading (boot installed)) <> Return 1 /\
  st_fs (snd (main 5 interrupted_reading (boot installed))) !! PID_FILE
    = Some (File "31337").
Proof.
  repeat split; try (vm_compute; reflexivity).
  vm_compute. discriminate.
Qed.

(** *** The marker file round trip *)

(** C10.  For every process identifier [pid]: when the spawn path's write
    ([str(pid)] and nothing else) is followed by the detection path's read
    (read the file, strip, parse), the integer read is [pid]. *)
Theorem marker_roundtrip env st (pid : Z) :
  st_fs st !! PID_FILE <> Some Dir ->
  (write_text PID_FILE (py_str pid) ;;
   let* text := read_text PID_FILE in
   int_ (py_strip text)) env st
  = (Val pid,
     {| st_fs := <[PID_FILE := File (py_str pid)]> (st_fs st);
        st_cwd := st_cwd st;
        st_log := st_log st ++ [WriteFile PID_FILE (py_str pid)] |}).
Proof.
  intros Hd. unfold bind, write_text, read_text, int_, record, with_fs.
  cbn [st_fs st_cwd st_log].
  destruct (st_fs st !! PID_FILE) as [[text |] |] eqn:Hf;
    [| congruence |];
    cbn [st_fs]; rewrite lookup_insert_eq, py_int_strip_str; reflexivity.
Qed.

Lemma marker_roundtrip_witness :
  fst ((write_text PID_FILE (py_str 31337) ;;
        let* text := read_text PID_FILE in
        int_ (py_strip text)) (calm 0) (boot installed))
  = Val 31337.
Proof.
  rewrite (marker_roundtrip (calm 0) (boot installed) 31337).
  - reflexivity.
  - vm_compute. discriminate.
Defined.

(** ** Further properties of the launcher *)

(** *** Other ways through the duplicate-run detection *)

(** X1.  Without a marker file, and with the run past the checks, [main]
    probes nothing and removes nothing: right after the banner it announces
    the start and calls [Popen]. *)
Theorem fresh_run_spawns fuel env st :
  ready st ->
  st_fs st !! PID_FILE = None ->
  main fuel env st = start fuel env (entered st) /\
  exists rest,
    st_log (snd (main fuel env st)) =
      st_log st ++ banner ++ Print "Starting Kijko app..."
        :: Popen ARGV APP_DIR (child_env (e_environ env)) :: rest.
Proof.
  intros Hr Hf.
  assert (main fuel env st = start fuel env (entered st)) as E.
  { rewrite (main_enter env fuel st Hr). unfold bind.
    now rewrite (check_running_absent env (entered st) Hf). }
  split; [exact E |]. rewrite E.
  destruct (start_attempts_spawn env fuel (entered st)) as (rest & Hlog).
  exists rest. rewrite Hlog. cbn [entered st_log]. now rewrite <- app_assoc.
Qed.

Lemma fresh_run_spawns_witness :
  exists rest,
    st_log (snd (main 5 (calm 0) (boot installed))) =
      banner ++ Print "Starting Kijko app..."
        :: Popen ARGV APP_DIR (child_env (e_environ (calm 0))) :: rest.
Proof.
  apply (fresh_run_spawns 5 (calm 0) (boot installed)).
  - repeat split; vm_compute; reflexivity.
  - vm_compute. reflexivity.
Defined.

(** X2.  A process that exists but may not be signalled ([EPERM]) counts as
    gone: [os.kill] raises [PermissionError], an [OSError], so [main]
    deletes the marker file and goes on to spawn a second child. *)
Theorem unsignalable_process_counts_as_gone fuel env st text pid :
  ready st ->
  st_fs st !! PID_FILE = Some (File text) ->
  py_int (py_strip text) = Some pid ->
  fits_pid_t pid = true ->
  e_probe env pid = NotPermitted ->
  let st1 :=
    {| st_fs := delete PID_FILE (st_fs st); st_cwd := APP_DIR;
       st_log := st_log st ++ banner ++ [Kill pid 0; Remove PID_FILE] |} in
  main fuel env st = start fuel env st1 /\
  exists rest,
    st_log (snd (main fuel env st)) =
      st_log st1 ++ Print "Starting Kijko app..."
        :: Popen ARGV APP_DIR (child_env (e_environ env)) :: rest.
Proof.
  intros Hr Hf Hp Hfit Hprobe st1.
  assert (main fuel env st = start fuel env st1) as E.
  { rewrite (main_enter env fuel st Hr). unfold bind.
    rewrite (check_running_stale env (entered st) text pid
               (Exn PermissionError "[Errno 1] Operation not permitted") Hf Hp);
      [| unfold kill0_raises; now rewrite Hfit, Hprobe | reflexivity].
    subst st1. cbn [entered st_fs st_cwd st_log]. now rewrite <- app_assoc. }
  split; [exact E |]. rewrite E. apply start_attempts_spawn.
Qed.

Lemma unsignalable_process_counts_as_gone_witness :
  st_fs (snd (main 5 foreign (boot (with_marker "1")))) !! PID_FILE = None /\
  exists rest,
    st_log (snd (main 5 foreign (boot (with_marker "1")))) =
      (banner ++ [Kill 1 0; Remove PID_FILE])
      ++ Print "Starting Kijko app..."
      :: Popen ARGV APP_DIR (child_env (e_environ foreign)) :: rest.
Proof.
  split; [vm_compute; reflexivity |].
  apply (unsignalable_process_counts_as_gone 5 foreign
           (boot (with_marker "1")) "1" 1);
    try (vm_compute; reflexivity).
  repeat split; vm_compute; reflexivity.
Defined.

(** X3.  A marker file whose literal [int] accepts (well formed and within
    the digit limit) but whose value does not fit a process identifier makes
    [os.kill] raise [OverflowError], with the text of the failed conversion;
    neither handler of the detection catches it, so it leaves [main]: the
    marker file stays and nothing is spawned.  (A literal beyond the digit
    limit never gets that far: [int] refuses it.) *)
Theorem oversized_pid_leaves_main fuel env st text pid :
  ready st ->
  st_fs st !! PID_FILE = Some (File text) ->
  within_int_limit (py_strip text) = true ->
  py_int (py_strip text) = Some pid ->
  fits_pid_t pid = false ->
  main fuel env st =
    (Raise (Exn OverflowError (overflow_text pid)),
     {| st_fs := st_fs st; st_cwd := APP_DIR;
        st_log := st_log st ++ banner ++ [Kill pid 0] |}).
Proof.
  intros Hr Hf _ Hp Hfit. rewrite (main_enter env fuel st Hr).
  pose proof (path_exists_Some _ _ _ Hf) as Hx.
  assert (kill0_raises env pid = Some (Exn OverflowError (overflow_text pid)))
    as Hk by (unfold kill0_raises; now rewrite Hfit).
  unfold check_running, entered. exec. now tidy_log.
Qed.

Lemma oversized_pid_leaves_main_witness :
  fst (main 5 (calm 0) (boot (with_marker "99999999999")))
    = Raise (Exn OverflowError "signed integer is greater than maximum") /\
  st_fs (snd (main 5 (calm 0) (boot (with_marker "99999999999"))))
    = with_marker "99999999999" /\
  fst (main 5 (calm 0) (boot (with_marker "-2147483649")))
    = Raise (Exn OverflowError "signed integer is less than minimum").
Proof.
  rewrite (oversized_pid_leaves_main 5 (calm 0)
             (boot (with_marker "99999999999")) "99999999999" 99999999999
             ltac:(repeat split; vm_compute; reflexivity)
             ltac:(vm_compute; reflexivity) ltac:(vm_compute; reflexivity)
             ltac:(vm_compute; reflexivity) ltac:(vm_compute; reflexivity)).
  rewrite (oversized_pid_leaves_main 5 (calm 0)
             (boot (with_marker "-2147483649")) "-2147483649" (-2147483649)
             ltac:(repeat split; vm_compute; reflexivity)
             ltac:(vm_compute; reflexivity) ltac:(vm_compute; reflexivity)
             ltac:(vm_compute; reflexivity) ltac:(vm_compute; reflexivity)).
  repeat split.
Defined.

(** X4.  If the marker path exists but is a directory, reading it raises
    [IsADirectoryError], which is neither a [ValueError] nor a
    [FileNotFoundError]: it leaves [main] before anything is probed, removed
    or spawned. *)
Theorem marker_directory_leaves_main fuel env st :
  ready st ->
  st_fs st !! PID_FILE = Some Dir ->
  main fuel env st =
    (Raise (Exn IsADirectoryError ("[Errno 21] Is a directory: " +:+ PID_FILE)),
     entered st).
Proof.
  intros Hr Hf. rewrite (main_enter env fuel st Hr).
  pose proof (path_exists_Some _ _ _ Hf) as Hx.
  unfold check_running, entered. exec. reflexivity.
Qed.

Lemma marker_directory_leaves_main_witness :
  fst (main 5 (calm 0) (boot marker_is_dir))
    = Raise (Exn IsADirectoryError "[Errno 21] Is a directory: /tmp/kijko-app.pid").
Proof.
  rewrite (marker_directory_leaves_main 5 (calm 0) (boot marker_is_dir));
    [ reflexivity
    | repeat split; vm_compute; reflexivity
    | vm_compute; reflexivity ].
Defined.

(** X5.  The inner [try] also covers the browser call of the already-running
    path: if the recorded process is alive but [webbrowser.open] raises an
    [OSError], the handler meant for a dead process runs, the marker file of
    the live process is deleted and [main] goes on to spawn. *)
Theorem browser_error_discards_live_marker fuel env st text pid e :
  ready st ->
  st_fs st !! PID_FILE = Some (File text) ->
  py_int (py_strip text) = Some pid ->
  fits_pid_t pid = true ->
  e_probe env pid = Alive ->
  e_browser env = Some e ->
  is_OSError e = true ->
  let st1 :=
    {| st_fs := delete PID_FILE (st_fs st); st_cwd := APP_DIR;
       st_log := st_log st ++ banner ++
         [ Kill pid 0;
           Print ("Kijko app is already running (PID: " +:+ py_str pid +:+ ")");
           BrowserOpen URL;
           Remove PID_FILE ] |} in
  main fuel env st = start fuel env st1 /\
  exists rest,
    st_log (snd (main fuel env st)) =
      st_log st1 ++ Print "Starting Kijko app..."
        :: Popen ARGV APP_DIR (child_env (e_environ env)) :: rest.
Proof.
  intros Hr Hf Hp Hfit Hprobe Hb He st1.
  assert (main fuel env st = start fuel env st1) as E.
  { rewrite (main_enter env fuel st Hr).
    pose proof (path_exists_Some _ _ _ Hf) as Hx.
    assert (kill0_raises env pid = None) as Hk
      by (unfold kill0_raises; now rewrite Hfit, Hprobe).
    unfold bind at 1.
    assert (check_running env (entered st) = (Val tt, st1)) as ->;
      [| reflexivity].
    subst st1. unfold check_running, entered. exec. now tidy_log. }
  split; [exact E |]. rewrite E. apply start_attempts_spawn.
Qed.

Lemma browser_error_discards_live_marker_witness :
  e_probe no_browser 4242 = Alive /\
  st_fs (snd (main 5 no_browser (boot (with_marker "4242")))) !! PID_FILE
    = Some (File "31337").
Proof.
  split; [reflexivity |].
  rewrite (proj1 (browser_error_discards_live_marker 5 no_browser
             (boot (with_marker "4242")) "4242" 4242
             (Exn OSError "[Errno 8] Exec format error")
             ltac:(repeat split; vm_compute; reflexivity)
             ltac:(vm_compute; reflexivity) ltac:(vm_compute; reflexivity)
             ltac:(reflexivity) ltac:(reflexivity) ltac:(reflexivity)
             ltac:(reflexivity))).
  vm_compute. reflexivity.
Defined.

(** *** A failed spawn *)

(** X14.  When [Popen] raises, no marker file is written: on a run that
    reaches the spawn, the spawn is the last action before the report and
    no marker file exists when [main] ends, also where a stale one existed
    before. *)
Theorem failed_spawn_leaves_no_marker fuel env st e :
  reaches_spawn env st ->
  e_popen env = inl e ->
  st_fs (snd (main fuel env st)) !! PID_FILE = None /\
  exists evs,
    st_log (snd (main fuel env st)) =
      st_log st ++ evs ++
      Popen ARGV APP_DIR (child_env (e_environ env)) :: report e.
Proof.
  intros Hr Hp.
  destruct (at_spawn_log env st) as (det & Hlog & _).
  rewrite (main_spawn_failure fuel env st e Hr Hp). cbn [snd st_fs st_log].
  split; [exact (at_spawn_no_marker env st Hr) |].
  exists (banner ++ det ++ [Print "Starting Kijko app..."]).
  rewrite Hlog, <- !app_assoc. cbn [app]. reflexivity.
Qed.

Lemma failed_spawn_leaves_no_marker_witness :
  st_fs (snd (main 5 no_shell (boot (with_marker "999999")))) !! PID_FILE
    = None.
Proof.
  apply (failed_spawn_leaves_no_marker 5 no_shell
           (boot (with_marker "999999"))
           (Exn FileNotFoundError "[Errno 2] No such file or directory: 'bash'")).
  - repeat split; vm_compute; reflexivity.
  - reflexivity.
Defined.

(** *** What no run does *)

Section Frame.

Context {A : Type} (q : string).

Lemma touches_same (m : M A) :
  (forall env st, st_fs (snd (m env st)) = st_fs st) -> touches_only q m.
Proof. intros H env st p _. now rewrite H. Qed.

Lemma touches_bind {B} (m : M B) (k : B -> M A) :
  touches_only q m -> (forall b, touches_only q (k b)) ->
  touches_only q (bind m k).
Proof.
  intros Hm Hk env st p Hp. unfold bind. specialize (Hm env st p Hp).
  destruct (m env st) as [[b | c | e |] st1]; cbn [snd] in *; try exact Hm.
  now rewrite (Hk b env st1 p Hp).
Qed.

Lemma touches_try (body : M A) clauses :
  touches_only q body ->
  (forall e handler, clauses e = Some handler -> touches_only q handler) ->
  touches_only q (try_except body clauses).
Proof.
  intros Hb Hc env st p Hp. unfold try_except. specialize (Hb env st p Hp).
  destruct (body env st) as [[b | c | e |] st1]; cbn [snd] in *; try exact Hb.
  destruct (clauses e) as [handler |] eqn:Hh; [| exact Hb].
  now rewrite (Hc e handler Hh env st1 p Hp).
Qed.

Lemma touches_if (b : bool) (m1 m2 : M A) :
  touches_only q m1 -> touches_only q m2 ->
  touches_only q (if b then m1 else m2).
Proof. now destruct b. Qed.

End Frame.

Lemma touches_write_text q content : touches_only q (write_text q content).
Proof.
  intros env st p Hp. unfold write_text. cbn.
  destruct (st_fs st !! q) as [[] |]; cbn; try reflexivity;
    now rewrite lookup_insert_ne by congruence.
Qed.

Lemma touches_os_remove q : touches_only q (os_remove q).
Proof.
  intros env st p Hp. unfold os_remove. cbn.
  destruct (st_fs st !! q) as [[] |]; cbn; try reflexivity.
  now rewrite lookup_delete_ne by congruence.
Qed.

(** The calls that leave the file system alone. *)
Ltac fs_unchanged :=
  apply touches_same; intros ? ?;
  unfold print, os_environ_copy, os_chdir, os_path_exists, read_text, int_,
    os_kill, webbrowser_open, time_sleep, subprocess_Popen, stdout_readline,
    process_poll, ret, return_, raise, running, record, with_cwd;
  cbn; repeat case_match; reflexivity.

Ltac touches_auto :=
  repeat first
    [ progress intros
    | apply touches_bind | apply touches_try | apply touches_if
    | apply touches_write_text | apply touches_os_remove
    | match goal with
      | H : (if ?b then _ else _) = Some _ |- _ =>
          destruct b; [injection H as <- | try discriminate]
      | H : Some _ = Some _ |- _ => injection H as <-
      | H : None = Some _ |- _ => discriminate H
      end
    | solve [fs_unchanged]
    | assumption ].

Lemma touches_monitor fuel : forall i, touches_only PID_FILE (monitor fuel i).
Proof.
  induction fuel as [| fuel IH]; intros i; cbn [monitor]; touches_auto.
  apply IH.
Qed.

Lemma touches_launch_clauses q e handler :
  launch_clauses e = Some handler -> touches_only q handler.
Proof. unfold launch_clauses. touches_auto. Qed.

Lemma main_touches fuel : touches_only PID_FILE (main fuel).
Proof.
  pose proof (touches_monitor fuel) as Hm.
  unfold main, preamble, check_binaries, check_running, start, guarded,
    launch, cleanup.
  touches_auto; [apply Hm | eapply touches_launch_clauses; eassumption].
Qed.

(** X6.  Whatever the surroundings answer and however the run ends, [main]
    changes the file system at the marker path at most: every other path
    holds after the run what it held before. *)
Theorem only_marker_touched fuel env st p :
  p <> PID_FILE ->
  st_fs (snd (main fuel env st)) !! p = st_fs st !! p.
Proof. intros Hp. exact (main_touches fuel env st p Hp). Qed.

Lemma only_marker_touched_witness :
  st_fs (snd (main 5 broken_pipe (boot (with_marker "999999")))) !! NODE
    = Some (File "ELF").
Proof.
  rewrite (only_marker_touched 5 broken_pipe (boot (with_marker "999999")) NODE).
  - vm_compute. reflexivity.
  - vm_compute. discriminate.
Defined.

Section Spawns.

Context {A : Type}.

Lemma spawned_app evs1 evs2 : spawned (evs1 ++ evs2) = spawned evs1 ++ spawned evs2.
Proof. unfold spawned. apply flat_map_app. Qed.

Lemma spawned_none evs : Forall no_spawn evs -> spawned evs = [].
Proof.
  induction 1 as [| ev evs Hev _ IH]; [reflexivity |].
  destruct ev; cbn in *; try exact IH. contradiction.
Qed.

Lemma spawns_none k (m : M A) : emits no_spawn m -> spawns_at_most k m.
Proof.
  intros Hm env st. destruct (Hm env st) as (evs & E & F).
  exists evs. split; [exact E |]. rewrite (spawned_none evs F). cbn. lia.
Qed.

(** The spawns are in the first part of a sequence ... *)
Lemma spawns_bind_l {B} k (m : M B) (f : B -> M A) :
  spawns_at_most k m -> (forall b, emits no_spawn (f b)) ->
  spawns_at_most k (bind m f).
Proof.
  intros Hm Hf env st. unfold bind. destruct (Hm env st) as (evs & E & L).
  destruct (m env st) as [[b | c | e |] st1]; cbn [snd] in *;
    try (exists evs; now split).
  destruct (Hf b env st1) as (evs' & E' & F').
  exists (evs ++ evs'). split; [now rewrite E', E, app_assoc |].
  rewrite spawned_app, (spawned_none evs' F'), app_nil_r. exact L.
Qed.

(** ... or in the second. *)
Lemma spawns_bind_r {B} k (m : M B) (f : B -> M A) :
  emits no_spawn m -> (forall b, spawns_at_most k (f b)) ->
  spawns_at_most k (bind m f).
Proof.
  intros Hm Hf env st. unfold bind. destruct (Hm env st) as (evs & E & F).
  destruct (m env st) as [[b | c | e |] st1]; cbn [snd] in *;
    try (exists evs; split; [exact E |];
         rewrite (spawned_none evs F); cbn; lia).
  destruct (Hf b env st1) as (evs' & E' & L').
  exists (evs ++ evs'). split; [now rewrite E', E, app_assoc |].
  rewrite spawned_app, (spawned_none evs F). exact L'.
Qed.

Lemma spawns_try k (body : M A) clauses :
  spawns_at_most k body ->
  (forall e handler, clauses e = Some handler -> emits no_spawn handler) ->
  spawns_at_most k (try_except body clauses).
Proof.
  intros Hb Hc env st. unfold try_except.
  destruct (Hb env st) as (evs & E & L).
  destruct (body env st) as [[b | c | e |] st1]; cbn [snd] in *;
    try (exists evs; now split).
  destruct (clauses e) as [handler |] eqn:Hh; [| exists evs; now split].
  destruct (Hc e handler Hh env st1) as (evs' & E' & F').
  exists (evs ++ evs'). split; [now rewrite E', E, app_assoc |].
  rewrite spawned_app, (spawned_none evs' F'), app_nil_r. exact L.
Qed.

End Spawns.

Lemma spawns_subprocess_Popen argv cwd cenv :
  spawns_at_most 1 (subprocess_Popen argv cwd cenv).
Proof.
  intros env st. exists [Popen argv cwd cenv]. split; [| cbn; lia].
  unfold subprocess_Popen. now destruct (e_popen env).
Qed.

Lemma emits_os_chdir P path : P (Chdir path) -> emits P (os_chdir path).
Proof.
  apply emits_one. intros env st. unfold os_chdir. cbn.
  now destruct (st_fs st !! path) as [[] |].
Qed.

Lemma quiet_monitor fuel : forall i, emits no_spawn (monitor fuel i).
Proof.
  induction fuel as [| fuel IH]; intros i; cbn [monitor]; emits_auto.
Qed.

Lemma quiet_launch_clauses e handler :
  launch_clauses e = Some handler -> emits no_spawn handler.
Proof. unfold launch_clauses. emits_auto. Qed.

(** X7.  No run spawns more than one child: whatever the surroundings
    answer, the actions of [main] contain at most one call of [Popen]. *)
Theorem at_most_one_spawn fuel env st :
  exists evs,
    st_log (snd (main fuel env st)) = st_log st ++ evs /\
    (length (spawned evs) <= 1)%nat.
Proof.
  revert env st. change (spawns_at_most 1 (main fuel)).
  pose proof (quiet_monitor fuel) as Hm.
  unfold main.
  apply spawns_bind_r;
    [unfold preamble; emits_auto; now apply emits_os_chdir | intros _].
  apply spawns_bind_r; [unfold check_binaries; emits_auto | intros _].
  apply spawns_bind_r; [unfold check_running; emits_auto | intros _].
  unfold start.
  apply spawns_bind_r; [emits_auto | intros _].
  apply spawns_bind_r; [emits_auto | intros environ].
  unfold guarded.
  apply spawns_bind_l; [| emits_auto].
  apply spawns_try; [| apply quiet_launch_clauses].
  unfold launch.
  apply spawns_bind_l; [apply spawns_subprocess_Popen |].
  unfold cleanup. emits_auto.
Qed.

Section Codes.

Context {A : Type} (P : Z -> Prop).

Lemma returns_never (m : M A) :
  (forall env st code, fst (m env st) <> Return code) -> returns_only P m.
Proof. intros H env st code Hc. now destruct (H env st code). Qed.

Lemma returns_return code : P code -> returns_only P (return_ code : M A).
Proof. intros Hp env st c [= <-]. exact Hp. Qed.

Lemma returns_bind {B} (m : M B) (k : B -> M A) :
  returns_only P m -> (forall b, returns_only P (k b)) ->
  returns_only P (bind m k).
Proof.
  intros Hm Hk env st code. unfold bind. specialize (Hm env st).
  destruct (m env st) as [[b | c | e |] st1]; cbn [fst] in *;
    try discriminate.
  - apply Hk.
  - intros [= <-]. now apply Hm.
Qed.

Lemma returns_try (body : M A) clauses :
  returns_only P body ->
  (forall e handler, clauses e = Some handler -> returns_only P handler) ->
  returns_only P (try_except body clauses).
Proof.
  intros Hb Hc env st code. unfold try_except. specialize (Hb env st).
  destruct (body env st) as [[b | c | e |] st1]; cbn [fst] in *;
    try discriminate.
  - apply Hb.
  - destruct (clauses e) as [handler |] eqn:Hh; [| discriminate].
    now apply (Hc e handler Hh).
Qed.

Lemma returns_if (b : bool) (m1 m2 : M A) :
  returns_only P m1 -> returns_only P m2 ->
  returns_only P (if b then m1 else m2).
Proof. now destruct b. Qed.

End Codes.

(** The calls that never execute [return]. *)
Ltac no_return :=
  apply returns_never; intros ? ? ?;
  unfold print, os_environ_copy, os_chdir, os_path_exists, read_text,
    write_text, os_remove, int_, os_kill, webbrowser_open, time_sleep,
    subprocess_Popen, stdout_readline, process_poll, ret, raise, running,
    record, with_cwd, with_fs;
  cbn; repeat case_match; discriminate.

Ltac returns_auto :=
  repeat first
    [ progress intros
    | apply returns_bind | apply returns_try | apply returns_if
    | match goal with
      | H : (if ?b then _ else _) = Some _ |- _ =>
          destruct b; [injection H as <- | try discriminate]
      | H : Some _ = Some _ |- _ => injection H as <-
      | H : None = Some _ |- _ => discriminate H
      end
    | solve [ apply returns_return;
              first [ solve [unfold zero_or_one; auto]
                    | solve [unfold nonzero; discriminate] ] ]
    | solve [no_return] ].

Lemma returns_monitor P fuel : forall i, returns_only P (monitor fuel i).
Proof.
  induction fuel as [| fuel IH]; intros i; cbn [monitor]; returns_auto.
  apply IH.
Qed.

Lemma returns_launch_clauses e handler :
  launch_clauses e = Some handler -> returns_only zero_or_one handler.
Proof. unfold launch_clauses. returns_auto. Qed.

(** X8.  Whenever [main] executes a [return], the code is 0 or 1. *)
Theorem exit_code_zero_or_one fuel env st code :
  fst (main fuel env st) = Return code -> code = 0 \/ code = 1.
Proof.
  revert env st code. change (returns_only zero_or_one (main fuel)).
  pose proof (returns_monitor zero_or_one fuel) as Hm.
  unfold main, preamble, check_binaries, check_running, start, guarded,
    launch, cleanup.
  returns_auto; [apply Hm | eapply returns_launch_clauses; eassumption].
Qed.

(** *** Success means a browser tab *)

Section Opened.

Context {A : Type}.

Lemma opened_weaken (m : M A) : opened_if_done m -> opened_if_zero m.
Proof.
  intros H env st. destruct (H env st) as (evs & E & Q).
  exists evs. split; [exact E | auto].
Qed.

Lemma opened_quiet (m : M A) :
  emits any_event m -> returns_only nonzero m -> opened_if_zero m.
Proof.
  intros He Hr env st. destruct (He env st) as (evs & E & _).
  exists evs. split; [exact E |]. intros H0. now destruct (Hr env st 0 H0).
Qed.

Lemma opened_seq {B} (m : M B) (k : B -> M A) :
  opened_if_zero m -> (forall b, opened_if_zero (k b)) ->
  opened_if_zero (bind m k).
Proof.
  intros Hm Hk env st. unfold bind. destruct (Hm env st) as (evs & E & Q).
  destruct (m env st) as [[b | c | e |] st1]; cbn [fst snd] in *.
  - destruct (Hk b env st1) as (evs' & E' & Q').
    exists (evs ++ evs'). split; [now rewrite E', E, app_assoc |].
    intros H0. apply in_or_app. right. now apply Q'.
  - exists evs. split; [exact E |]. intros [= ->]. now apply Q.
  - exists evs. split; [exact E | discriminate].
  - exists evs. split; [exact E | discriminate].
Qed.

Lemma opened_then {B} (m : M B) (k : B -> M A) :
  opened_if_done m -> (forall b, emits any_event (k b)) ->
  opened_if_done (bind m k).
Proof.
  intros Hm Hk env st. unfold bind. destruct (Hm env st) as (evs & E & Q).
  destruct (m env st) as [[b | c | e |] st1]; cbn [fst snd] in *.
  - destruct (Hk b env st1) as (evs' & E' & _).
    exists (evs ++ evs'). split; [now rewrite E', E, app_assoc |].
    intros _. apply in_or_app. left. apply Q. right. now exists b.
  - exists evs. split; [exact E |]. intros [[= ->] | [a [=]]].
    apply Q. now left.
  - exists evs. split; [exact E |]. now intros [[=] | [a [=]]].
  - exists evs. split; [exact E |]. now intros [[=] | [a [=]]].
Qed.

Lemma opened_later {B} (m : M B) (k : B -> M A) :
  emits any_event m -> returns_only nonzero m ->
  (forall b, opened_if_done (k b)) ->
  opened_if_done (bind m k).
Proof.
  intros He Hr Hk env st. unfold bind.
  destruct (He env st) as (evs & E & _). specialize (Hr env st).
  destruct (m env st) as [[b | c | e |] st1]; cbn [fst snd] in *.
  - destruct (Hk b env st1) as (evs' & E' & Q').
    exists (evs ++ evs'). split; [now rewrite E', E, app_assoc |].
    intros H. apply in_or_app. right. now apply Q'.
  - exists evs. split; [exact E |]. intros [[= ->] | [a [=]]].
    now destruct (Hr 0 eq_refl).
  - exists evs. split; [exact E |]. now intros [[=] | [a [=]]].
  - exists evs. split; [exact E |]. now intros [[=] | [a [=]]].
Qed.

Lemma opened_try_zero (body : M A) clauses :
  opened_if_zero body ->
  (forall e handler, clauses e = Some handler ->
     emits any_event handler /\ returns_only nonzero handler) ->
  opened_if_zero (try_except body clauses).
Proof.
  intros Hb Hc env st. unfold try_except.
  destruct (Hb env st) as (evs & E & Q).
  destruct (body env st) as [[b | c | e |] st1]; cbn [fst snd] in *;
    try (exists evs; now split).
  destruct (clauses e) as [handler |] eqn:Hh; [| exists evs; now split].
  destruct (Hc e handler Hh) as [He Hr].
  destruct (He env st1) as (evs' & E' & _).
  exists (evs ++ evs'). split; [now rewrite E', E, app_assoc |].
  intros H0. now destruct (Hr env st1 0 H0).
Qed.

Lemma opened_try_done (body : M A) clauses :
  opened_if_done body ->
  (forall e handler, clauses e = Some handler -> bails handler) ->
  opened_if_done (try_except body clauses).
Proof.
  intros Hb Hc env st. unfold try_except.
  destruct (Hb env st) as (evs & E & Q).
  destruct (body env st) as [[b | c | e |] st1]; cbn [fst snd] in *;
    try (exists evs; now split).
  destruct (clauses e) as [handler |] eqn:Hh; [| exists evs; now split].
  destruct (Hc e handler Hh) as (He & Hr & Hv).
  destruct (He env st1) as (evs' & E' & _).
  exists (evs ++ evs'). split; [now rewrite E', E, app_assoc |].
  intros [H0 | [a Ha]]; [now destruct (Hr env st1 0 H0) |].
  now destruct (Hv env st1 a).
Qed.

End Opened.

Lemma opened_if {A} (b : bool) (m1 m2 : M A) :
  opened_if_zero m1 -> opened_if_zero m2 ->
  opened_if_zero (if b then m1 else m2).
Proof. now destruct b. Qed.

Lemma opened_webbrowser_open : opened_if_done (webbrowser_open URL).
Proof.
  intros env st. exists [BrowserOpen URL]. split.
  - unfold webbrowser_open. now destruct (e_browser env).
  - intros _. now left.
Qed.

Lemma launch_clauses_bail e handler :
  launch_clauses e = Some handler -> bails handler.
Proof.
  intros H. split; [exact (emits_launch_clauses e handler H) |]. split.
  - intros env st code Hc.
    destruct (returns_launch_clauses e handler H env st code Hc) as [-> | ->];
      [| discriminate].
    revert Hc. unfold launch_clauses in H.
    destruct (is_FileNotFoundError e); [injection H as <- |
      destruct (is_Exception e); [injection H as <- | discriminate]];
      discriminate.
  - intros env st a. unfold launch_clauses in H.
    destruct (is_FileNotFoundError e); [injection H as <- |
      destruct (is_Exception e); [injection H as <- | discriminate]];
      discriminate.
Qed.

(** Side conditions: a block is quiet about [return 0]. *)
Ltac quiet :=
  apply opened_quiet; [emits_auto; now apply emits_os_chdir | returns_auto].

Lemma opened_check_running : opened_if_zero check_running.
Proof.
  unfold check_running.
  apply opened_seq; [quiet | intros present].
  apply opened_if; [| quiet].
  apply opened_try_zero.
  - apply opened_seq; [quiet | intros text].
    apply opened_seq; [quiet | intros pid].
    apply opened_try_zero.
    + apply opened_seq; [quiet | intros _].
      apply opened_seq; [quiet | intros _].
      apply opened_weaken, opened_then; [apply opened_webbrowser_open |].
      emits_auto.
    + intros e handler H. destruct (is_OSError e); [| discriminate].
      injection H as <-. split; [emits_auto | returns_auto].
  - intros e handler H.
    destruct (is_ValueError e || is_FileNotFoundError e); [| discriminate].
    injection H as <-. split; [emits_auto | returns_auto].
Qed.

Lemma opened_launch fuel cenv : opened_if_done (launch fuel cenv).
Proof.
  unfold launch.
  apply opened_later; [emits_auto | returns_auto | intros pid].
  do 6 (apply opened_later; [emits_auto | returns_auto | intros _]).
  apply opened_then; [apply opened_webbrowser_open | intros _].
  pose proof (emits_monitor fuel). unfold cleanup. emits_auto.
Qed.

(** X9.  A run that ends with [return 0] has opened the browser at
    [http://localhost:5173]: either it found the application running, or it
    started it and watched it until it exited. *)
Theorem success_means_browser_opened fuel env st :
  fst (main fuel env st) = Return 0 ->
  exists evs,
    st_log (snd (main fuel env st)) = st_log st ++ evs /\
    In (BrowserOpen "http://localhost:5173") evs.
Proof.
  intros H0.
  assert (opened_if_zero (main fuel)) as Hmain.
  { unfold main.
    apply opened_seq; [unfold preamble; quiet | intros _].
    apply opened_seq; [unfold check_binaries; quiet | intros _].
    apply opened_seq; [apply opened_check_running | intros _].
    unfold start.
    apply opened_seq; [quiet | intros _].
    apply opened_seq; [quiet | intros environ].
    unfold guarded. apply opened_weaken, opened_then; [| emits_auto].
    apply opened_try_done; [apply opened_launch | apply launch_clauses_bail]. }
  destruct (Hmain env st) as (evs & E & Q).
  exists evs. split; [exact E | exact (Q H0)].
Qed.

Lemma success_means_browser_opened_witness :
  exists evs,
    st_log (snd (main 5 (calm 0) (boot (with_marker "999999")))) = evs /\
    In (BrowserOpen "http://localhost:5173") evs.
Proof.
  destruct (success_means_browser_opened 5 (calm 0)
              (boot (with_marker "999999"))) as (evs & E & Hin);
    [vm_compute; reflexivity |].
  exists evs. split; [exact E | exact Hin].
Defined.

Lemma exit_code_zero_or_one_witness :
  fst (main 5 broken_pipe (boot installed)) = Return 1 /\ (1 = 0 \/ 1 = 1).
Proof.
  split; [vm_compute; reflexivity |].
  apply (exit_code_zero_or_one 5 broken_pipe (boot installed) 1).
  vm_compute. reflexivity.
Defined.

(** *** The monitoring loop, line by line *)

Lemma printed_app evs1 evs2 : printed (evs1 ++ evs2) = printed evs1 ++ printed evs2.
Proof. unfold printed. apply flat_map_app. Qed.

Lemma printed_step_events env j : printed (step_events env j) = line_shown env j.
Proof.
  unfold step_events, line_shown.
  destruct (e_readline env j) as [e | line]; [reflexivity |].
  now destruct (String.eqb line "").
Qed.

Lemma printed_steps env js :
  printed (flat_map (step_events env) js) = flat_map (line_shown env) js.
Proof.
  induction js as [| j js IH]; [reflexivity |].
  cbn [flat_map]. now rewrite printed_app, printed_step_events, IH.
Qed.

(** X10.  The loop mirrors the child's output: when it has gone through [n]
    iterations from the [i]-th line on and leaves in the next one (the child
    has exited, or a call raised), what it has printed is exactly the
    non-empty lines it read, each stripped, in the order read; an empty read
    prints nothing. *)
Theorem loop_mirrors_output env n i fuel st :
  streams env i n = true ->
  (n < fuel)%nat ->
  step_at env (i + n) <> Goes ->
  exists evs,
    st_log (snd (monitor fuel i env st)) = st_log st ++ evs /\
    printed evs = lines_shown env i (S n).
Proof.
  intros Hs Hf Hg. rewrite (monitor_runs env n i fuel st Hs Hf).
  exists (flat_map (step_events env) (seq i (S n))). split.
  - destruct (step_at env (i + n)); [contradiction | reflexivity ..].
  - apply printed_steps.
Qed.

Lemma loop_mirrors_output_witness :
  exists evs,
    st_log (snd (monitor 5 0 (calm 0) (boot installed))) = evs /\
    printed evs = ["VITE ready"; "Local: http://localhost:5173/"].
Proof.
  destruct (loop_mirrors_output (calm 0) 2 0 5 (boot installed))
    as (evs & E & Hp);
    [ vm_compute; reflexivity | lia | vm_compute; discriminate | ].
  exists evs. split; [exact E | exact Hp].
Defined.

(** While every iteration goes on, the loop uses up its fuel. *)
Lemma monitor_goes_on env fuel :
  forall i st,
    streams env i fuel = true ->
    monitor fuel i env st =
      (Running,
       {| st_fs := st_fs st; st_cwd := st_cwd st;
          st_log := st_log st ++ flat_map (step_events env) (seq i fuel) |}).
Proof.
  induction fuel as [| fuel IH]; intros i st Hs.
  - cbn. rewrite app_nil_r. now destruct st.
  - rewrite monitor_step. unfold streams in Hs. cbn [seq forallb] in Hs.
    apply andb_prop in Hs as [Hg Hs]. unfold goes_on in Hg.
    destruct (step_at env i); try discriminate.
    rewrite (IH (S i) _ Hs). cbn [st_fs st_cwd st_log seq flat_map].
    now rewrite <- app_assoc.
Qed.

Lemma still_running (body : M unit) env st st' :
  body env st = (Running, st') -> guarded body env st = (Running, st').
Proof. intros Hb. unfold guarded, bind, try_except. now rewrite Hb. Qed.

(** The state of a launcher whose child is still going. *)
Lemma main_goes_on fuel env st pid :
  reaches_spawn env st ->
  e_popen env = inr pid ->
  e_sleep env = None ->
  e_browser env = None ->
  streams env 0 fuel = true ->
  main fuel env st =
    (Running,
     {| st_fs := <[PID_FILE := File (py_str pid)]> (st_fs (at_spawn env st));
        st_cwd := st_cwd (at_spawn env st);
        st_log := (st_log (at_spawn env st) ++ [Print "Starting Kijko app..."])
                  ++ spawn_events pid (child_env (e_environ env))
                  ++ flat_map (step_events env) (seq 0 fuel) |}).
Proof.
  intros Hr Hp Hs Hb Hg.
  pose proof (at_spawn_no_marker env st Hr) as Hm.
  rewrite (main_start env fuel st Hr), start_run.
  apply still_running.
  rewrite (launch_enters_loop env fuel (child_env (e_environ env))
             (record (Print "Starting Kijko app...") (at_spawn env st))
             pid Hp Hm Hs Hb).
  unfold bind. rewrite (monitor_goes_on env fuel 0 _ Hg).
  cbn [st_fs st_cwd st_log record]. now rewrite <- !app_assoc.
Qed.

(** X11.  The launcher lives as long as its child: on a run that reached the
    monitoring loop, as long as every iteration either reads a line or finds
    the stream empty with the child still alive, [main] is still in the loop
    (it neither returns nor raises, however many iterations it is given) and
    the marker file holds the child's identifier. *)
Theorem launcher_waits_for_child fuel env st pid :
  reaches_spawn env st ->
  e_popen env = inr pid ->
  e_sleep env = None ->
  e_browser env = None ->
  streams env 0 fuel = true ->
  fst (main fuel env st) = Running /\
  st_fs (snd (main fuel env st)) !! PID_FILE = Some (File (py_str pid)).
Proof.
  intros Hr Hp Hs Hb Hg. rewrite (main_goes_on fuel env st pid Hr Hp Hs Hb Hg).
  split; [reflexivity |]. apply lookup_insert_eq.
Qed.

Lemma launcher_waits_for_child_witness :
  fst (main 40 lingering (boot installed)) = Running /\
  st_fs (snd (main 40 lingering (boot installed))) !! PID_FILE
    = Some (File "31337").
Proof.
  apply (launcher_waits_for_child 40 lingering (boot installed) 31337);
    [ repeat split; vm_compute; reflexivity
    | reflexivity | reflexivity | reflexivity | vm_compute; reflexivity ].
Defined.

(** *** Two launchers *)




(** *** Reading the marker file *)

Lemma lstrip_padding ws s : all_space ws = true -> lstrip (ws +:+ s) = lstrip s.
Proof.
  induction ws as [| c ws IH]; [reflexivity |]. cbn [all_space].
  intros [Hc Hw]%andb_prop.
  change (lstrip (String c (ws +:+ s)) = lstrip s).
  cbn [lstrip]. rewrite Hc. now apply IH.
Qed.

Lemma rstrip_all_space ws : all_space ws = true -> rstrip ws = "".
Proof.
  induction ws as [| c ws IH]; [reflexivity |]. cbn [all_space rstrip].
  intros [Hc Hw]%andb_prop. now rewrite (IH Hw), Hc.
Qed.

Lemma rstrip_padding s ws : all_space ws = true -> rstrip (s +:+ ws) = rstrip s.
Proof.
  intros Hw. induction s as [| c s IH].
  - now apply rstrip_all_space.
  - change (rstrip (String c (s +:+ ws)) = rstrip (String c s)).
    cbn [rstrip]. now rewrite IH.
Qed.

Lemma py_strip_padding ws1 s ws2 :
  all_space ws1 = true -> all_space ws2 = true ->
  no_space s = true -> s <> "" ->
  py_strip (ws1 +:+ s +:+ ws2) = s.
Proof.
  intros H1 H2 Hs Hne. unfold py_strip. rewrite (lstrip_padding _ _ H1).
  destruct s as [| c s]; [contradiction |].
  cbn [no_space] in Hs. apply andb_prop in Hs as [Hc Hs'].
  assert (lstrip (String c s +:+ ws2) = String c s +:+ ws2) as ->.
  { change (lstrip (String c (s +:+ ws2)) = String c (s +:+ ws2)).
    cbn [lstrip]. now destruct (py_isspace c). }
  rewrite (rstrip_padding _ _ H2). apply rstrip_no_space.
  cbn [no_space]. now rewrite Hc, Hs'.
Qed.

Lemma py_str_nonempty z : py_str z <> "".
Proof.
  intros E. pose proof (int_signed_py_str z) as H. rewrite E in H.
  discriminate.
Qed.

Lemma py_int_py_str z : py_int (py_str z) = Some z.
Proof.
  unfold py_int. rewrite (py_strip_no_space _ (no_space_py_str z)).
  apply int_signed_py_str.
Qed.

(** X13.  The detection also reads back an identifier that somebody else
    wrote with white space around it (a trailing newline, say): for every
    [pid], reading a marker file that holds [str(pid)] between runs of white
    space yields [pid]. *)
Theorem padded_marker_read_back env st pid ws1 ws2 :
  st_fs st !! PID_FILE = Some (File (ws1 +:+ py_str pid +:+ ws2)) ->
  all_space ws1 = true ->
  all_space ws2 = true ->
  (let* text := read_text PID_FILE in int_ (py_strip text)) env st
  = (Val pid, st).
Proof.
  intros Hf H1 H2. unfold bind, read_text, int_. rewrite Hf.
  rewrite (py_strip_padding ws1 (py_str pid) ws2 H1 H2
             (no_space_py_str pid) (py_str_nonempty pid)).
  now rewrite py_int_py_str.
Qed.

Lemma padded_marker_read_back_witness :
  (let* text := read_text PID_FILE in int_ (py_strip text)) (calm 0)
    (boot (with_marker " 	4242
"))
  = (Val 4242, boot (with_marker " 	4242
")).
Proof.
  apply (padded_marker_read_back (calm 0) (boot (with_marker " 	4242
")) 4242 " 	" "
"); vm_compute; reflexivity.
Defined.

(** *** The child's environment *)

(** X15.  The child inherits the launcher's environment: [PATH] is the old
    [PATH] (empty if there was none) behind the Node directory and a colon,
    [NVM_BIN] and [NVM_DIR] are set, and every other variable is passed on
    as it is. *)
Theorem child_env_inherits (environ : gmap string string) :
  child_env environ !! "PATH"
    = Some (NODE_BIN +:+ ":" +:+ default "" (environ !! "PATH")) /\
  child_env environ !! "NVM_BIN" = Some NODE_BIN /\
  child_env environ !! "NVM_DIR" = Some "/home/david/.nvm" /\
  forall name,
    name <> "PATH" -> name <> "NVM_BIN" -> name <> "NVM_DIR" ->
    child_env environ !! name = environ !! name.
Proof.
  unfold child_env. repeat split.
  - rewrite !lookup_insert_ne by discriminate. apply lookup_insert_eq.
  - rewrite lookup_insert_ne by discriminate. apply lookup_insert_eq.
  - apply lookup_insert_eq.
  - intros name H1 H2 H3. now rewrite !lookup_insert_ne by congruence.
Qed.

(** *** The application directory *)

(** X16.  The change of directory comes before every check and is not
    guarded: if the application directory does not exist, or is no
    directory, [main] raises an [OSError] right after the banner; it looks
    at no executable and no marker file, and changes nothing. *)
Theorem missing_app_dir_leaves_main fuel env st :
  st_fs st !! APP_DIR <> Some Dir ->
  exists e,
    is_OSError e = true /\
    main fuel env st =
      (Raise e,
       {| st_fs := st_fs st; st_cwd := st_cwd st;
          st_log := st_log st ++ banner |}).
Proof.
  intros Hd. unfold main, preamble, banner.
  destruct (st_fs st !! APP_DIR) as [[content |] |] eqn:Hf;
    [| congruence |]; eexists; (split; [| exec; now tidy_log]); reflexivity.
Qed.

Lemma missing_app_dir_leaves_main_witness :
  exists e,
    is_OSError e = true /\
    fst (main 5 (calm 0) (boot ∅)) = Raise e.
Proof.
  destruct (missing_app_dir_leaves_main 5 (calm 0) (boot ∅)) as (e & He & E);
    [vm_compute; discriminate |].
  exists e. split; [exact He | now rewrite E].
Defined.
